(** * Retrieval core of the contract RAG ([rag_core.py])

    A shallow embedding of the retrieval engine: the hybrid retriever
    ([_HybridRetriever]), the retriever factory ([_create_retriever]), the
    index store ([_build_vectorstore]) and the retrieval service
    ([answer_question]), with the properties the specification states about
    them.

    Conventions.
    - Python [str] is [string]; the text handled here is taken to be ASCII
      (the vocabulary of the classifier and every message of the module are).
    - Python [int] is [Z]; a slice [l[:n]] is [Py.take n l], with Python's
      reading of a negative bound.
    - A [dict] is a [gmap]; a [set] is a [gset].
    - A raised exception is the [Raise] case of [outcome]; calls to the
      collaborators (vector store, keyword index, language model) are recorded
      in the [calls] log of the [World] that every effectful function threads.
*)

From Stdlib Require Import Ascii.
From stdpp Require Import gmap strings list sorting pretty.

Local Open Scope Z_scope.

(** ** Python primitives *)

Module Py.

(** [l[:n]] for a list. *)
Definition take {A} (n : Z) (l : list A) : list A :=
  if decide (0 ≤ n) then list.take (Z.to_nat n) l
  else list.take (length l - Z.to_nat (- n))%nat l.

(** [l[-n:]] for a non-negative literal [n]. *)
Definition last_n {A} (n : nat) (l : list A) : list A :=
  list.drop (length l - n)%nat l.

(** [s[:n]] for a string and a non-negative literal [n]. *)
Fixpoint str_take (n : nat) (s : string) : string :=
  match n, s with
  | O, _ => ""
  | S _, "" => ""
  | S n', String c s' => String c (str_take n' s')
  end.

(** [s.startswith(p)] *)
Fixpoint startswith (p s : string) : bool :=
  match p, s with
  | "", _ => true
  | String _ _, "" => false
  | String a p', String b s' => bool_decide (a = b) && startswith p' s'
  end.

(** [p in s] for strings: [p] occurs in [s] as a substring. *)
Fixpoint contains (p s : string) : bool :=
  startswith p s ||
  match s with
  | "" => false
  | String _ s' => contains p s'
  end.

Definition lower_ascii (c : ascii) : ascii :=
  let n := N_of_ascii c in
  if decide (65 ≤ n ≤ 90)%N then ascii_of_N (n + 32) else c.

(** [s.lower()] *)
Fixpoint lower (s : string) : string :=
  match s with
  | "" => ""
  | String c s' => String (lower_ascii c) (lower s')
  end.

(** [str.isspace] on one ASCII character. *)
Definition is_space (c : ascii) : bool :=
  let n := N_of_ascii c in
  bool_decide (9 ≤ n ≤ 13)%N || bool_decide (28 ≤ n ≤ 32)%N.

Fixpoint lstrip (s : string) : string :=
  match s with
  | "" => ""
  | String c s' => if is_space c then lstrip s' else s
  end.

(** [s.strip()] *)
Definition strip (s : string) : string :=
  String.rev (lstrip (String.rev (lstrip s))).

(** [sep.join(l)] *)
Fixpoint join (sep : string) (l : list string) : string :=
  match l with
  | [] => ""
  | [x] => x
  | x :: l' => x +:+ sep +:+ join sep l'
  end.

(** [s.split(sep)] for a one-character separator. *)
Fixpoint split_go (sep : ascii) (cur : string) (s : string) : list string :=
  match s with
  | "" => [String.rev cur]
  | String c s' =>
      if bool_decide (c = sep) then String.rev cur :: split_go sep "" s'
      else split_go sep (String c cur) s'
  end.
Definition split (sep : ascii) (s : string) : list string := split_go sep "" s.

(** Truth value of a string and of a list. *)
Definition str_bool (s : string) : bool := negb (bool_decide (s = "")).
Definition list_bool {A} (l : list A) : bool :=
  match l with [] => false | _ => true end.

(** [str(n)] for an integer. *)
Definition str_of_Z (n : Z) : string := pretty n.

End Py.

(** ** Exceptions and the effect monad *)

Inductive exn : Type :=
  | ValueError (msg : string)
  | Exception (msg : string).

Inductive outcome (A : Type) : Type :=
  | Ok (a : A)
  | Raise (e : exn).
Arguments Ok {A} a.
Arguments Raise {A} e.

(** ** Documents *)

(** [langchain_core.documents.Document]: the text of a chunk and its
    metadata dictionary. The entries this module reads and writes
    ([source], [filename], [page]) are kept as strings. *)
Record Document : Type := mkDocument {
  page_content : string;
  metadata : gmap string string
}.

Global Instance Document_eq_dec : EqDecision Document.
Proof. solve_decision. Defined.

(** [doc.metadata.get(key, "")] *)
Definition meta_get (doc : Document) (key : string) : string :=
  default "" (metadata doc !! key).

(** The key computed in [_add]:
    [(doc.page_content[:100], doc.metadata.get("source", ""))]. *)
Definition dedup_key (doc : Document) : string * string :=
  (Py.str_take 100 (page_content doc), meta_get doc "source").

Definition RETRIEVER_K : Z := 8.

(** ** The merge of [_HybridRetriever._get_relevant_documents] *)

Module Hybrid.

(** The two locals [seen] and [result] that the closure [_add] mutates. *)
Record acc : Type := mkAcc {
  seen : gset (string * string);
  result : list Document
}.

Definition acc0 : acc := mkAcc ∅ [].

Definition _add (a : acc) (doc : Document) : acc :=
  let key := dedup_key doc in
  if decide (key ∈ seen a) then a
  else mkAcc ({[key]} ∪ seen a) (result a ++ [doc]).

(** [for doc in docs: _add(doc)] *)
Definition add_all (a : acc) (docs : list Document) : acc :=
  foldl _add a docs.

(** The body of the [with] block once both futures have delivered, and the
    final [return result[: self.k]]. *)
Definition after_semantic (k : Z) (sem : list Document) : acc :=
  add_all acc0 (Py.take (k `div` 2) sem).

Definition after_bm25 (k : Z) (sem bm25 : list Document) : acc :=
  let a := after_semantic k sem in
  add_all a (Py.take (k - Z.of_nat (length (result a))) bm25).

Definition merge (k : Z) (sem bm25 : list Document) : list Document :=
  Py.take k (result (after_bm25 k sem bm25)).

(** The invariant of the loop: [seen] holds exactly the identities of
    [result], each once. *)
Definition wf (a : acc) : Prop :=
  (∀ key, key ∈ seen a ↔ key ∈ dedup_key <$> result a)
  ∧ NoDup (dedup_key <$> result a).

End Hybrid.

(** ** The world: environment, persisted files, calls to collaborators *)

(** What a file of the persist directory holds, as far as this module reads
    it back: the pickled chunk list ([chunks.pkl]), the vector database
    written by Chroma, or anything else. *)
Inductive FileData : Type :=
  | PickledChunks (chunks : list Document)
  | VectorDB (indexed : list Document)
  | OtherFile.

(** A metadata filter handed to Chroma: [{field: {"$eq": value}}]. *)
Abbreviation chroma_filter := (string * string)%type.

Inductive Event : Type :=
  | CallSimilaritySearch (query : string) (k : Z) (filter : option chroma_filter)
  | CallBM25 (query : string)
  | CallLLM (question context hist : string)
  | CallEmbed (texts : list string).

Record World : Type := mkWorld {
  env : gmap string string;
  (** directories by path; the entries of a directory by relative path *)
  fs : gmap string (gmap string FileData);
  calls : list Event
}.

Definition M (A : Type) : Type := World → outcome A * World.

Definition ret {A} (a : A) : M A := λ w, (Ok a, w).
Definition raise {A} (e : exn) : M A := λ w, (Raise e, w).
Definition bind {A B} (m : M A) (f : A → M B) : M B :=
  λ w, match m w with
       | (Ok a, w') => f a w'
       | (Raise e, w') => (Raise e, w')
       end.
(** [try: m  except Exception: h] *)
Definition try_except {A} (m : M A) (h : M A) : M A :=
  λ w, match m w with
       | (Ok a, w') => (Ok a, w')
       | (Raise _, w') => h w'
       end.
Definition lift {A} (o : outcome A) : M A := λ w, (o, w).
(** The world after some more calls to collaborators. *)
Definition logged (w : World) (evs : list Event) : World :=
  mkWorld (env w) (fs w) (calls w ++ evs).
Definition emit (ev : Event) : M unit := λ w, (Ok (), logged w [ev]).
Definition get_world : M World := λ w, (Ok w, w).
Definition set_fs (f : gmap string (gmap string FileData)) : M unit :=
  λ w, (Ok (), mkWorld (env w) f (calls w)).

Notation "'let!' x ':=' m 'in' k" := (bind m (λ x, k))
  (at level 10, x pattern, m at level 100, k at level 200).
Notation "m ';;' k" := (bind m (λ _, k))
  (at level 100, k at level 200, right associativity).

(** ** Collaborators *)

(** A Chroma handle. [chroma_search q k f] is what
    [similarity_search(q, k=k, filter=f)] delivers; [chroma_bool] is the truth
    value Python gives the object in [if filter_source and vectorstore] (an
    object is true unless its class says otherwise, for instance through
    its length). *)
Record Chroma : Type := mkChroma {
  chroma_bool : bool;
  chroma_search : string → Z → option chroma_filter → outcome (list Document)
}.

Definition similarity_search (vs : Chroma) (q : string) (k : Z)
    (f : option chroma_filter) : M (list Document) :=
  emit (CallSimilaritySearch q k f);; lift (chroma_search vs q k f).

(** The keyword index; [bm25_search q] is what [invoke(q)] delivers. *)
Record BM25Retriever : Type := mkBM25 {
  bm25_search : string → outcome (list Document)
}.

Definition bm25_invoke (r : BM25Retriever) (q : string) : M (list Document) :=
  emit (CallBM25 q);; lift (bm25_search r q).

(** The language model behind [(_RAG_PROMPT | llm).invoke]. *)
Record AzureChatOpenAI : Type := mkLLM {
  llm_reply : string → string → string → outcome string
}.

Definition chain_invoke (llm : AzureChatOpenAI) (question context hist : string)
    : M string :=
  emit (CallLLM question context hist);; lift (llm_reply llm question context hist).

(** [BaseRetriever]: the one capability every retriever offers. *)
Record BaseRetriever : Type := mkRetriever {
  invoke : string → M (list Document)
}.

(** [vectorstore.as_retriever(search_kwargs={"k": k})]: a retriever whose
    [invoke] is the unfiltered similarity search with that [k]. *)
Definition as_retriever (vs : Chroma) (k : Z) : BaseRetriever :=
  mkRetriever (λ q, similarity_search vs q k None).

(** ** [_HybridRetriever] *)

(** Both searches are submitted to the pool before either result is read;
    [f_sem.result()] is read first, so a failure of the semantic branch is the
    one that propagates. The log lists the two calls in submission order. *)
Definition _get_relevant_documents
    (semantic : BaseRetriever) (bm25 : BM25Retriever) (k : Z) (query : string)
    : M (list Document) :=
  λ w,
    let '(r_sem, w1) := invoke semantic query w in
    let '(r_bm25, w2) := bm25_invoke bm25 query w1 in
    match r_sem with
    | Raise e => (Raise e, w2)
    | Ok sem =>
        match r_bm25 with
        | Raise e => (Raise e, w2)
        | Ok kw => (Ok (Hybrid.merge k sem kw), w2)
        end
    end.

Definition _HybridRetriever (semantic : BaseRetriever) (bm25 : BM25Retriever)
    (k : Z) : BaseRetriever :=
  mkRetriever (_get_relevant_documents semantic bm25 k).

(** ** [_create_retriever] *)

Section CreateRetriever.

(** [BM25Retriever.from_documents(chunks, k=k)], which may raise. *)
Variable from_documents : list Document → Z → outcome BM25Retriever.

(** What assigning an attribute that is not a declared field does on a
    [BaseRetriever]: nothing more, or an exception where the base class
    refuses such attributes. *)
Variable set_attribute : outcome unit.

(** [_HybridRetriever(semantic_retriever, bm25_retriever)]: after
    [super().__init__()] the constructor assigns [self.semantic], [self.bm25]
    and [self.k]; a refused assignment raises out of the constructor. *)
Definition _HybridRetriever_init (semantic : BaseRetriever)
    (bm25 : BM25Retriever) (k : Z) : outcome BaseRetriever :=
  match set_attribute with
  | Ok _ => Ok (_HybridRetriever semantic bm25 k)
  | Raise e => Raise e
  end.

Definition _create_retriever (vectorstore : Chroma)
    (chunks : option (list Document)) (use_hybrid : bool) : BaseRetriever :=
  let semantic_retriever := as_retriever vectorstore RETRIEVER_K in
  let chunks_true :=
    match chunks with None => false | Some l => Py.list_bool l end in
  if use_hybrid && chunks_true then
    match from_documents (default [] chunks) (RETRIEVER_K `div` 2) with
    | Ok bm25_retriever =>
        match _HybridRetriever_init semantic_retriever bm25_retriever
                                    RETRIEVER_K with
        | Ok retriever => retriever
        | Raise _ => semantic_retriever
        end
    | Raise _ => semantic_retriever
    end
  else semantic_retriever.

End CreateRetriever.

(** ** The merge as the specification words it

    "From the semantic branch take up to K/2 results in their returned order;
    then from the keyword branch take results in their returned order until
    the combined count reaches K, skipping any chunk whose deduplication
    identity was already added."

    Written from these words and from the data model of the specification
    alone: the chunks added so far are a list, a chunk's identity is
    [(first 100 characters of its text, its source path)], and a chunk of
    either branch is skipped when its identity was already added. *)

Module SpecWords.

Definition identity (c : Document) : string * string :=
  (String.substring 0 100 (page_content c), default "" (metadata c !! "source")).

(** A chunk with the identity of [c] is among the chunks added. *)
Definition already_added (added : list Document) (c : Document) : bool :=
  existsb (λ c', bool_decide (identity c' = identity c)) added.

(** Take [c] unless its identity was already added. *)
Definition take_chunk (added : list Document) (c : Document) : list Document :=
  if already_added added c then added else added ++ [c].

(** Up to [k/2] results of the semantic branch, in their returned order. *)
Definition take_semantic (k : Z) (sem : list Document) : list Document :=
  foldl take_chunk [] (list.take (Z.to_nat (k `div` 2)) sem).

(** Walk the keyword results in order; stop once the count has reached [k]. *)
Fixpoint fill (k : Z) (added : list Document) (kw : list Document)
    : list Document :=
  match kw with
  | [] => added
  | c :: kw' =>
      if decide (k ≤ Z.of_nat (length added)) then added
      else fill k (take_chunk added c) kw'
  end.

Definition merge (k : Z) (sem kw : list Document) : list Document :=
  fill k (take_semantic k sem) kw.

End SpecWords.

(** The two branches "return non-overlapping results": no result of one
    shares its deduplication identity with a result of the other. *)
Definition non_overlapping (sem kw : list Document) : Prop :=
  ∀ d1 d2, d1 ∈ sem → d2 ∈ kw → dedup_key d1 ≠ dedup_key d2.

(** ** Paths and the corpus directory *)

Definition nl : string := String (ascii_of_nat 10) "".

Module PyPath.

(** The components of a POSIX path, without the root, empty components and
    [.] components, which [pathlib] drops. *)
Definition parts (p : string) : list string :=
  filter (λ s, s ≠ "" ∧ s ≠ ".") (Py.split "/" p).

(** [Path(p).name] *)
Definition name (p : string) : string := default "" (last (parts p)).

(** [parent / child] *)
Definition joinpath (parent child : string) : string :=
  parent +:+ "/" +:+ child.

(** Paths compare by their components. *)
Fixpoint parts_leb (a b : list string) : bool :=
  match a, b with
  | [], _ => true
  | _ :: _, [] => false
  | x :: a', y :: b' =>
      if decide (x = y) then parts_leb a' b' else String.leb x y
  end.

Definition le (p q : string) : Prop := parts_leb (parts p) (parts q) = true.

Global Instance le_dec : RelDecision le.
Proof. intros p q. unfold le. apply _. Defined.

(** [sorted(paths)] *)
Definition sorted (paths : list string) : list string := merge_sort le paths.

(** [s.endswith(suffix)], which is how [*.pdf] matches a file name. *)
Definition endswith (suffix s : string) : bool :=
  Py.startswith (String.rev suffix) (String.rev s).

(** [sorted(dir.glob("**/*.pdf"))] over the files of a directory, given by
    their paths relative to it. *)
Definition sorted_glob_pdf (dir : string) (entries : gmap string FileData)
    : list string :=
  sorted (joinpath dir <$> filter (endswith ".pdf") (elements (dom entries))).

End PyPath.

(** ** The index store: [_build_vectorstore] *)

Record AzureOpenAIEmbeddings : Type := mkEmbeddings {
  embed_documents : list string → outcome unit
}.

Definition chunks_name : string := "chunks.pkl".
Definition chroma_db_name : string := "chroma.sqlite3".

(** The chunks a persisted directory holds vectors for. *)
Definition indexed_chunks (entries : gmap string FileData) : list Document :=
  match entries !! chroma_db_name with
  | Some (VectorDB docs) => docs
  | _ => []
  end.

(** [pickle.load] of an entry: only a pickled chunk list loads. *)
Definition pickle_load (d : FileData) : outcome (list Document) :=
  match d with
  | PickledChunks chunks => Ok chunks
  | _ => Raise (Exception "UnpicklingError")
  end.

(** [value.lower() in ("true", "1", "yes")] *)
Definition reindex_requested (value : string) : bool :=
  bool_decide (Py.lower value ∈ ["true"; "1"; "yes"]).

Section IndexStore.

(** [Path.resolve] *)
Variable resolve : string → string.
(** The two PDF loaders, each of which may raise on a file. *)
Variable PyMuPDFLoader_load : string → outcome (list Document).
Variable PyPDFLoader_load : string → outcome (list Document).
(** [RecursiveCharacterTextSplitter(...).split_documents] *)
Variable split_documents : list Document → list Document.
(** The handle Chroma gives on a collection holding these chunks. *)
Variable chroma_handle : list Document → Chroma.

Definition read_dir (dir : string) : M (option (gmap string FileData)) :=
  λ w, (Ok (fs w !! dir), w).

(** [dir.mkdir(parents=True, exist_ok=True)] *)
Definition mkdir (dir : string) : M unit :=
  let! w := get_world in
  match fs w !! dir with
  | Some _ => ret ()
  | None => set_fs (<[dir := ∅]> (fs w))
  end.

(** [shutil.rmtree(dir)] *)
Definition rmtree (dir : string) : M unit :=
  let! w := get_world in set_fs (delete dir (fs w)).

(** Create or overwrite one file of a directory. *)
Definition write_file (dir name : string) (d : FileData) : M unit :=
  let! w := get_world in
  set_fs (<[dir := <[name := d]> (default ∅ (fs w !! dir))]> (fs w)).

(** [os.getenv(name, "")] *)
Definition getenv (name : string) : M string :=
  λ w, (Ok (default "" (env w !! name)), w).

(** The database client Chroma creates on a directory: it creates the
    database file, without vectors, when the directory has none. The model
    is of a process that creates its client on the directory as the
    directory is found: the clients the library keeps from earlier calls of
    the same process, which a removal of the directory makes unusable, are
    not part of the model. *)
Definition Chroma_client (dir : string) : M unit :=
  let! entries := read_dir dir in
  match default ∅ entries !! chroma_db_name with
  | Some _ => ret ()
  | None => write_file dir chroma_db_name (VectorDB [])
  end.

(** [Chroma(persist_directory=dir, embedding_function=embeddings)] *)
Definition Chroma_open (dir : string) : M Chroma :=
  Chroma_client dir;;
  let! entries := read_dir dir in
  ret (chroma_handle (indexed_chunks (default ∅ entries))).

(** [Chroma.from_documents(chunks, embeddings, persist_directory=dir)]:
    the store is created on the directory, then the chunks are embedded and
    added; a failure of the provider propagates and leaves the database
    without the chunks. *)
Definition Chroma_from_documents (chunks : list Document)
    (embeddings : AzureOpenAIEmbeddings) (dir : string) : M Chroma :=
  Chroma_client dir;;
  let texts := page_content <$> chunks in
  emit (CallEmbed texts);;
  let! _ := lift (embed_documents embeddings texts) in
  let! entries := read_dir dir in
  let all := indexed_chunks (default ∅ entries) ++ chunks in
  write_file dir chroma_db_name (VectorDB all);;
  ret (chroma_handle all).

Definition _load_pdf (path : string) : list Document :=
  match PyMuPDFLoader_load path with
  | Ok docs => docs
  | Raise _ =>
      match PyPDFLoader_load path with
      | Ok docs => docs
      | Raise _ => []
      end
  end.

(** [doc.metadata["filename"] = Path(src).name] when [src] is not empty. *)
Definition set_filename (doc : Document) : Document :=
  let src := meta_get doc "source" in
  if Py.str_bool src
  then mkDocument (page_content doc) (<["filename" := PyPath.name src]> (metadata doc))
  else doc.

(** The rebuild proper, from [pdf_dir_resolved = pdf_dir.resolve()] to
    the end of [_build_vectorstore]. *)
Definition rebuild (pdf_dir persist_dir : string)
    (embeddings : AzureOpenAIEmbeddings)
    : M (Chroma * option (list Document)) :=
  let pdf_dir_resolved := resolve pdf_dir in
  let! pdf_entries := read_dir pdf_dir_resolved in
  match pdf_entries with
  | None => raise (ValueError ("Pasta nao encontrada: " +:+ pdf_dir_resolved))
  | Some pdfs =>
      let pdf_files := PyPath.sorted_glob_pdf pdf_dir_resolved pdfs in
      if negb (Py.list_bool pdf_files) then
        raise (ValueError ("Nenhum PDF encontrado em " +:+ pdf_dir_resolved))
      else
        let documents := mjoin (_load_pdf <$> pdf_files) in
        let documents := set_filename <$> documents in
        let chunks := split_documents documents in
        write_file persist_dir chunks_name (PickledChunks chunks);;
        let! vectorstore := Chroma_from_documents chunks embeddings persist_dir in
        ret (vectorstore, Some chunks)
  end.

Definition _build_vectorstore (pdf_dir persist_dir : string)
    (embeddings : AzureOpenAIEmbeddings)
    : M (Chroma * option (list Document)) :=
  mkdir persist_dir;;
  let! reindex := getenv "REINDEX" in
  let force_reindex := reindex_requested reindex in
  let! entries := read_dir persist_dir in
  if negb force_reindex && negb (bool_decide (default ∅ entries = ∅)) then
    let! vectorstore := Chroma_open persist_dir in
    let chunks :=
      match default ∅ entries !! chunks_name with
      | Some d =>
          match pickle_load d with
          | Ok chunks => Some chunks
          | Raise _ => None
          end
      | None => None
      end in
    ret (vectorstore, chunks)
  else
    (if force_reindex && bool_decide (is_Some entries)
     then rmtree persist_dir;; mkdir persist_dir
     else ret ());;
    rebuild pdf_dir persist_dir embeddings.

End IndexStore.

(** ** The retrieval service *)

Definition _TERMOS_BASE : list string :=
  ["na base"; "na pasta"; "na pasta base"; "base de"].
Definition _TERMOS_ARQUIVO : list string :=
  ["pdf"; "pdfs"; "arquivo"; "arquivos"; "documento"; "documentos"].

(** [any(t in q for t in terms)] *)
Definition any_in (terms : list string) (q : string) : bool :=
  existsb (λ t, Py.contains t q) terms.

Definition _is_question_about_pdfs_in_base (question : string) : bool :=
  let q := Py.strip (Py.lower question) in
  let tem_base :=
    any_in _TERMOS_BASE q
    || (Py.contains "base" q && (Py.contains "esta" q || Py.contains "tem" q)) in
  let tem_arquivo :=
    any_in _TERMOS_ARQUIVO q || Py.contains "quais" q || Py.contains "lista" q in
  tem_base
  && (tem_arquivo || Py.contains "quais" q || Py.contains "lista" q
      || Py.contains "o que" q).

Definition NOTHING_FOUND : string :=
  "Nenhum trecho relevante encontrado nos documentos. " +:+
  "Tente reformular a pergunta ou defina REINDEX=true no .env para reindexar.".

(** The listing built from the sorted PDF paths:
    a header with their number, then one numbered line per file name. *)
Definition pdf_listing (pdf_files : list string) : string :=
  let linhas :=
    imap (λ i p, Py.str_of_Z (Z.of_nat i + 1) +:+ ". " +:+ PyPath.name p) pdf_files in
  "Os seguintes " +:+ Py.str_of_Z (Z.of_nat (length pdf_files))
  +:+ " arquivo(s) PDF estao na base:" +:+ nl +:+ nl +:+ Py.join nl linhas.

Definition _get_source_label (doc : Document) : string :=
  let source := meta_get doc "source" in
  let page := meta_get doc "page" in
  if Py.str_bool source then
    let nome_arquivo := PyPath.name source in
    if Py.str_bool (Py.strip page)
    then nome_arquivo +:+ " (pagina " +:+ page +:+ ")"
    else nome_arquivo
  else "Documento".

(** The context block: one labelled entry per chunk, in retrieval order. *)
Definition build_context (docs : list Document) : string :=
  Py.join (nl +:+ nl)
    (imap (λ i doc,
       "[Fonte " +:+ Py.str_of_Z (Z.of_nat i + 1) +:+ " - "
       +:+ _get_source_label doc +:+ "]" +:+ nl +:+ page_content doc) docs).

(** The history text: empty without history, else a header and the last
    five turns. *)
Definition build_history (history : option (list (string * string))) : string :=
  match history with
  | Some ((_ :: _) as h) =>
      Py.join ""
        ((nl +:+ nl +:+ "Historico da conversa (para contexto):" +:+ nl)
         :: ((λ pr : string * string,
               "P: " +:+ pr.1 +:+ nl +:+ "R: " +:+ pr.2 +:+ nl +:+ nl)
             <$> Py.last_n 5 h))
  | _ => ""
  end.

(** The client-side test of the fallback:
    [filter_source in d.metadata.get("source", "")
     or d.metadata.get("filename", "") == filter_source]. *)
Definition source_matches (filter_source : string) (d : Document) : bool :=
  Py.contains filter_source (meta_get d "source")
  || bool_decide (meta_get d "filename" = filter_source).

Section RetrievalService.

Variable resolve : string → string.

Definition _list_pdfs_in_base (pdf_dir : string) : M (string * list Document) :=
  let pdf_dir_resolved := resolve pdf_dir in
  λ w,
    match fs w !! pdf_dir_resolved with
    | None =>
        (Ok ("A pasta Base nao foi encontrada em " +:+ pdf_dir_resolved +:+ ".", []), w)
    | Some pdfs =>
        let pdf_files := PyPath.sorted_glob_pdf pdf_dir_resolved pdfs in
        if negb (Py.list_bool pdf_files)
        then (Ok ("Nenhum arquivo PDF encontrado na pasta Base.", []), w)
        else (Ok (pdf_listing pdf_files, []), w)
    end.

(** The filtered branch of [answer_question]: the exact metadata filter
    first, then the unfiltered search over [2 * RETRIEVER_K] candidates,
    filtered here and cut to [RETRIEVER_K]. *)
Definition filtered_search (vs : Chroma) (question filter_source : string)
    : M (list Document) :=
  let filter_dict : chroma_filter := ("filename", filter_source) in
  let! docs :=
    try_except (similarity_search vs question RETRIEVER_K (Some filter_dict))
               (ret []) in
  if negb (Py.list_bool docs) then
    let! all_docs := similarity_search vs question (RETRIEVER_K * 2) None in
    let docs := filter (λ d, source_matches filter_source d = true) all_docs in
    ret (Py.take RETRIEVER_K docs)
  else ret docs.

(** The end of [answer_question], from [if not docs:] on: the fixed message
    when no chunk was retrieved, else the reply of the model to the
    question, the context block and the history, with the chunks. *)
Definition answer_from_docs (question : string) (llm : AzureChatOpenAI)
    (history : option (list (string * string))) (docs : list Document)
    : M (string * list Document) :=
  if negb (Py.list_bool docs) then ret (NOTHING_FOUND, [])
  else
    let context := build_context docs in
    let hist_text := build_history history in
    let! content := chain_invoke llm question context hist_text in
    ret (content, docs).

(** [if filter_source and vectorstore] holds when neither is [None], the
    string is not empty and the handle is true. *)
Definition answer_question (question : string) (retriever : BaseRetriever)
    (llm : AzureChatOpenAI) (pdf_dir : string)
    (history : option (list (string * string)))
    (filter_source : option string) (vectorstore : option Chroma)
    : M (string * list Document) :=
  if _is_question_about_pdfs_in_base question then
    let! listed := _list_pdfs_in_base pdf_dir in
    ret (listed.1, [])
  else
    let! docs :=
      match filter_source, vectorstore with
      | Some fs', Some vs =>
          if Py.str_bool fs' && chroma_bool vs
          then filtered_search vs question fs'
          else invoke retriever question
      | _, _ => invoke retriever question
      end in
    answer_from_docs question llm history docs.

End RetrievalService.

(** ** Concrete data for the examples *)

Module Examples.

Definition chunk (text source : string) : Document :=
  mkDocument text {[ "source" := source ]}.

Definition d_a : Document := chunk "clausula primeira" "Base/contrato.pdf".
Definition d_b : Document := chunk "clausula segunda" "Base/contrato.pdf".
Definition d_c : Document := chunk "clausula terceira" "Base/contrato.pdf".
Definition d_d : Document := chunk "clausula quarta" "Base/contrato.pdf".
Definition d_e : Document := chunk "clausula quinta" "Base/contrato.pdf".

(** Two chunks of one file that start with the same page header: the same
    identity, different pages. *)
Definition page_chunk (page : string) : Document :=
  mkDocument "CONTRATO 5900.0122983.22.2"
             {[ "source" := "Base/contrato.pdf"; "page" := page ]}.
Definition d_p1 : Document := page_chunk "1".
Definition d_p2 : Document := page_chunk "2".

Definition w0 : World := mkWorld ∅ ∅ [].

(** Collaborators that answer every query with a fixed list. *)
Definition fixed_chroma (docs : list Document) : Chroma :=
  mkChroma true (λ _ _ _, Ok docs).
Definition fixed_bm25 (docs : list Document) : BM25Retriever :=
  mkBM25 (λ _, Ok docs).
Definition fixed_semantic (docs : list Document) : BaseRetriever :=
  as_retriever (fixed_chroma docs) RETRIEVER_K.

Definition failing_bm25 (chunks : list Document) (k : Z) : outcome BM25Retriever :=
  Raise (Exception "ZeroDivisionError").

Definition fixed_llm : AzureChatOpenAI := mkLLM (λ _ _ _, Ok "resposta").

Definition d_anexo : Document := chunk "anexo tecnico" "Base/anexo.pdf".

(** An index written before [filename] was recorded: the exact filter on
    [filename] matches nothing, the unfiltered search delivers chunks. *)
Definition legacy_chroma : Chroma :=
  mkChroma true
    (λ _ _ filter,
       match filter with
       | Some _ => Ok []
       | None => Ok [d_a; d_anexo]
       end).

(** A corpus directory with two PDF files, one in a sub-directory, and a
    file that is no PDF. *)
Definition w_base : World :=
  mkWorld ∅
    {[ "Base" := {[ "b.pdf" := OtherFile; "sub/a.pdf" := OtherFile;
                    "notas.txt" := OtherFile ]} ]}
    [].

(** The index store of the examples: every PDF loads as one page, the
    splitter keeps pages whole, a handle delivers the chunks it holds. *)
Definition load_one_page (path : string) : outcome (list Document) :=
  Ok [chunk "texto do contrato" path].
Definition no_loader (path : string) : outcome (list Document) :=
  Raise (Exception "not used").
Definition failing_embeddings : AzureOpenAIEmbeddings :=
  mkEmbeddings (λ _, Raise (Exception "APITimeoutError")).
Definition working_embeddings : AzureOpenAIEmbeddings :=
  mkEmbeddings (λ _, Ok ()).
Definition build (embeddings : AzureOpenAIEmbeddings)
    : M (Chroma * option (list Document)) :=
  _build_vectorstore id load_one_page no_loader id fixed_chroma
                     "Base" "vectorstore" embeddings.

(** The chunks of the corpus of [w_base]. *)
Definition base_chunks : list Document :=
  [ mkDocument "texto do contrato"
      {[ "source" := "Base/b.pdf"; "filename" := "b.pdf" ]};
    mkDocument "texto do contrato"
      {[ "source" := "Base/sub/a.pdf"; "filename" := "a.pdf" ]} ].

(** A corpus directory without any PDF file, and a forced reindex. *)
Definition w_empty_forced : World :=
  mkWorld {[ "REINDEX" := "true" ]}
          {[ "Base" := {[ "notas.txt" := OtherFile ]};
             "vectorstore" := {[ "chunks.pkl" := PickledChunks [d_a] ]} ]}
          [].

Definition sem4 : list Document := [d_a; d_b; d_c; d_d].
Definition kw5 : list Document := [d_a; d_b; d_c; d_d; d_e].
Definition kw2 : list Document := [d_a; d_e].
Definition sem_pages : list Document := [d_p1; d_p2].

End Examples.

(** * The rest of the module and its command-line caller *)

(** Console output ([print]) is not part of the model. *)

(** ** Follow-up suggestions: [suggest_follow_up_questions] *)

Definition newline : ascii := ascii_of_nat 10.

Section Suggestions.

(** What [(prompt | llm).invoke({"question": ..., "answer": ...})] delivers
    as [response.content], or the exception it raises; the call is the only
    effect of the function. *)
Variable suggestion_chain : string → string → outcome string.

Definition suggest_follow_up_questions (question answer : string) : list string :=
  match suggestion_chain question answer with
  | Ok content =>
      let lines :=
        Py.strip <$>
          filter (λ s, Py.str_bool (Py.strip s) = true)
                 (Py.split newline (Py.strip content)) in
      if Py.list_bool lines then Py.take 6 lines else []
  | Raise _ => []
  end.

End Suggestions.

(** ** Initialisation: [_get_env], [init_rag], [rebuild_rag] *)

Definition set_env (e : gmap string string) : M unit :=
  λ w, (Ok (), mkWorld e (fs w) (calls w)).

(** [os.environ[name] = value] *)
Definition environ_set (name value : string) : M unit :=
  let! w := get_world in set_env (<[name := value]> (env w)).

(** [os.environ.pop(name, None)] *)
Definition environ_pop (name : string) : M unit :=
  let! w := get_world in set_env (delete name (env w)).

(** [try: m  finally: cleanup]: the cleanup runs whatever [m] does; the
    outcome is that of [m] unless the cleanup raises. *)
Definition try_finally {A} (m : M A) (cleanup : M unit) : M A :=
  λ w,
    let '(r, w1) := m w in
    match cleanup w1 with
    | (Ok _, w2) => (r, w2)
    | (Raise e, w2) => (Raise e, w2)
    end.

Definition _get_env (name : string) : M string :=
  let! w := get_world in
  match env w !! name with
  | Some value =>
      if Py.str_bool value then ret value
      else raise (ValueError ("Variavel de ambiente ausente: " +:+ name))
  | None => raise (ValueError ("Variavel de ambiente ausente: " +:+ name))
  end.

(** The five settings read by [init_rag], in the order it reads them. *)
Record Settings : Type := mkSettings {
  endpoint : string;
  api_key : string;
  api_version : string;
  chat_deployment : string;
  embed_deployment : string
}.

(** The value [init_rag] chooses for [ssl_verify]: [False], [True], or the
    path of a certificate bundle. *)
Inductive SslVerify : Type :=
  | VerifyFlag (b : bool)
  | VerifyBundle (path : string).

(** The dictionary [init_rag] returns. *)
Record RagComponents : Type := mkRag {
  rag_retriever : BaseRetriever;
  rag_vectorstore : Chroma;
  rag_llm : AzureChatOpenAI;
  rag_pdf_dir : string;
  rag_get_source_label : Document → string
}.

Section InitRag.

Variable resolve : string → string.
Variable PyMuPDFLoader_load : string → outcome (list Document).
Variable PyPDFLoader_load : string → outcome (list Document).
Variable split_documents : list Document → list Document.
Variable chroma_handle : list Document → Chroma.
Variable from_documents : list Document → Z → outcome BM25Retriever.
Variable set_attribute : outcome unit.
(** The first part of [init_rag], from [load_dotenv()] to the choice of
    [ssl_verify]: it reads the [.env] file, prepares the certificate bundle
    and the tokenizer cache, and delivers [ssl_verify]. *)
Variable prepare_environment : string → M SslVerify.
(** The clients built from [ssl_verify] and the settings: [httpx.Client],
    [AzureChatOpenAI] and [AzureOpenAIEmbeddings]. *)
Variable make_clients :
  SslVerify → Settings → AzureChatOpenAI * AzureOpenAIEmbeddings.

(** The names of the settings, in the order they are read. *)
Definition required_settings : list string :=
  [ "AZURE_OPENAI_ENDPOINT"; "API_KEY_MODELOS_TEXTO"; "AZURE_OPENAI_API_VERSION";
    "AZURE_OPENAI_CHAT_DEPLOYMENT"; "AZURE_OPENAI_EMBEDDINGS_DEPLOYMENT" ].

Definition read_settings : M Settings :=
  let! endpoint := _get_env "AZURE_OPENAI_ENDPOINT" in
  let! api_key := _get_env "API_KEY_MODELOS_TEXTO" in
  let! api_version := _get_env "AZURE_OPENAI_API_VERSION" in
  let! chat_deployment := _get_env "AZURE_OPENAI_CHAT_DEPLOYMENT" in
  let! embed_deployment := _get_env "AZURE_OPENAI_EMBEDDINGS_DEPLOYMENT" in
  ret (mkSettings endpoint api_key api_version chat_deployment embed_deployment).

Definition init_rag (base_dir : string) : M RagComponents :=
  let! ssl_verify := prepare_environment base_dir in
  let! settings := read_settings in
  let '(llm, embeddings) := make_clients ssl_verify settings in
  let pdf_dir := PyPath.joinpath base_dir "Base" in
  let persist_dir := PyPath.joinpath base_dir "vectorstore" in
  let! built :=
    _build_vectorstore resolve PyMuPDFLoader_load PyPDFLoader_load
                       split_documents chroma_handle
                       pdf_dir persist_dir embeddings in
  let retriever := _create_retriever from_documents set_attribute built.1 built.2 true in
  ret (mkRag retriever built.1 llm pdf_dir _get_source_label).

(** [rag_components] is not used by the function. *)
Definition rebuild_rag (base_dir : string) : M RagComponents :=
  environ_set "REINDEX" "true";;
  try_finally (init_rag base_dir) (environ_pop "REINDEX").

End InitRag.

(** ** The command-line loop of [main.py] *)

Module Cli.

(** [s[n:]] for a string and a non-negative literal [n]. *)
Fixpoint str_drop (n : nat) (s : string) : string :=
  match n, s with
  | O, _ => s
  | S _, "" => ""
  | S n', String _ s' => str_drop n' s'
  end.

(** The two variables the loop updates. *)
Record state : Type := mkState {
  history : list (string * string);
  filter_source : option string
}.

(** What one turn of the loop does next. *)
Inductive turn : Type :=
  | Break
  | Continue (s : state).

Section Loop.

Variable resolve : string → string.
Variable rag : RagComponents.
(** [pdf_names], the set of file names computed before the loop. *)
Variable pdf_names : gset string.

(** The body of [while True:] on the line [input] delivers. *)
Definition turn_on (line : string) (s : state) : M turn :=
  let question := Py.strip line in
  if negb (Py.str_bool question) then ret Break
  else if Py.startswith "/filter " question then
    let val := Py.strip (str_drop 8 question) in
    if bool_decide (Py.lower val = "off") then
      ret (Continue (mkState (history s) None))
    else if bool_decide (val ∈ pdf_names) then
      ret (Continue (mkState (history s) (Some val)))
    else ret (Continue s)
  else if bool_decide (question = "/historico") then ret (Continue s)
  else if bool_decide (question = "/limpar") then
    ret (Continue (mkState [] (filter_source s)))
  else
    let! answered :=
      answer_question resolve question (rag_retriever rag) (rag_llm rag)
                      (rag_pdf_dir rag) (Some (history s)) (filter_source s)
                      (Some (rag_vectorstore rag)) in
    let history1 := history s ++ [(question, answered.1)] in
    let history2 :=
      if decide (5 < length history1)%nat then Py.last_n 5 history1
      else history1 in
    ret (Continue (mkState history2 (filter_source s))).

(** The loop over the lines typed; [input] raises [EOFError] when there is
    no line left. *)
Fixpoint loop (lines : list string) (s : state) : M state :=
  match lines with
  | [] => raise (Exception "EOFError")
  | line :: lines' =>
      let! t := turn_on line s in
      match t with
      | Break => ret s
      | Continue s' => loop lines' s'
      end
  end.

End Loop.

(** What the loop keeps true of its two variables from one turn to the
    next, relative to the filter it started with: at most five turns of
    history; a filter that is the initial one, none, or a known file name. *)
Definition kept (pdf_names : gset string) (filter0 : option string) (s : state)
    : Prop :=
  (length (history s) ≤ 5)%nat
  ∧ (filter_source s = filter0 ∨ filter_source s = None
     ∨ ∃ name, name ∈ pdf_names ∧ filter_source s = Some name).

(** [{p.name for p in pdf_files}], with
    [pdf_files = sorted(pdf_dir.glob("**/*.pdf")) if pdf_dir.exists() else []]. *)
Definition pdf_names_of (resolve : string → string) (pdf_dir : string)
    (w : World) : gset string :=
  match fs w !! resolve pdf_dir with
  | Some entries => list_to_set (PyPath.name <$> PyPath.sorted_glob_pdf pdf_dir entries)
  | None => ∅
  end.

Section Main.

Variable resolve : string → string.
Variable PyMuPDFLoader_load : string → outcome (list Document).
Variable PyPDFLoader_load : string → outcome (list Document).
Variable split_documents : list Document → list Document.
Variable chroma_handle : list Document → Chroma.
Variable from_documents : list Document → Z → outcome BM25Retriever.
Variable set_attribute : outcome unit.
Variable prepare_environment : string → M SslVerify.
Variable make_clients :
  SslVerify → Settings → AzureChatOpenAI * AzureOpenAIEmbeddings.
(** [load_dotenv()] *)
Variable load_dotenv : M unit.

(** [main], given the value of [--filter], the directory above the script
    and the lines typed. *)
Definition main (args_filter : option string) (base_dir : string)
    (lines : list string) : M state :=
  load_dotenv;;
  let! rag :=
    init_rag resolve PyMuPDFLoader_load PyPDFLoader_load split_documents
             chroma_handle from_documents set_attribute prepare_environment
             make_clients
             base_dir in
  let! w := get_world in
  let pdf_names := pdf_names_of resolve (rag_pdf_dir rag) w in
  loop resolve rag pdf_names lines (mkState [] args_filter).

End Main.

End Cli.

(** ** More concrete data for the examples *)

Module MoreExamples.
Import Examples.

Definition failing_chroma : Chroma :=
  mkChroma true (λ _ _ _, Raise (Exception "APITimeoutError")).
Definition failing_semantic : BaseRetriever :=
  as_retriever failing_chroma RETRIEVER_K.
Definition failing_index : BM25Retriever :=
  mkBM25 (λ _, Raise (Exception "KeyError")).

(** An index with [filename] metadata: the exact filter finds a chunk. *)
Definition exact_chroma : Chroma :=
  mkChroma true
    (λ _ _ filter,
       match filter with
       | Some _ => Ok [d_a]
       | None => Ok [d_a; d_anexo]
       end).

(** An index without [filename] metadata whose unfiltered search fails. *)
Definition broken_fallback_chroma : Chroma :=
  mkChroma true
    (λ _ _ filter,
       match filter with
       | Some _ => Ok []
       | None => Raise (Exception "APITimeoutError")
       end).

Definition failing_llm : AzureChatOpenAI :=
  mkLLM (λ _ _ _, Raise (Exception "RateLimitError")).

Definition question : string := "Qual o valor do contrato?".

(** A persist directory as a build leaves it, and one without chunk list. *)
Definition built_entries : gmap string FileData :=
  {[ "chunks.pkl" := PickledChunks base_chunks;
     "chroma.sqlite3" := VectorDB base_chunks ]}.
Definition legacy_entries : gmap string FileData :=
  {[ "chroma.sqlite3" := VectorDB base_chunks ]}.
Definition base_entries : gmap string FileData :=
  {[ "b.pdf" := OtherFile; "sub/a.pdf" := OtherFile; "notas.txt" := OtherFile ]}.

Definition w_legacy : World :=
  mkWorld ∅ {[ "Base" := base_entries; "vectorstore" := legacy_entries ]} [].
Definition w_chunks_only : World :=
  mkWorld ∅ {[ "Base" := base_entries;
               "vectorstore" := {[ "chunks.pkl" := PickledChunks base_chunks ]} ]} [].
Definition w_forced : World :=
  mkWorld {[ "REINDEX" := "Yes" ]}
          {[ "Base" := base_entries; "vectorstore" := legacy_entries ]} [].

(** The settings of a complete [.env], and the same without the API key. *)
Definition env_complete : gmap string string :=
  {[ "AZURE_OPENAI_ENDPOINT" := "https://apim.example";
     "API_KEY_MODELOS_TEXTO" := "segredo";
     "AZURE_OPENAI_API_VERSION" := "2024-06-01";
     "AZURE_OPENAI_CHAT_DEPLOYMENT" := "gpt-4o";
     "AZURE_OPENAI_EMBEDDINGS_DEPLOYMENT" := "text-embedding-3-large" ]}.
Definition w_no_key : World :=
  mkWorld (<[ "API_KEY_MODELOS_TEXTO" := "" ]> env_complete)
          {[ "Base" := base_entries ]} [].

(** A world ready for a first start from the directory [/]. *)
Definition w_ready : World :=
  mkWorld env_complete {[ "/Base" := base_entries ]} [].

Definition prepare (base_dir : string) : M SslVerify := ret (VerifyFlag true).
Definition clients (v : SslVerify) (s : Settings)
    : AzureChatOpenAI * AzureOpenAIEmbeddings :=
  (fixed_llm, working_embeddings).

Definition init (base_dir : string) : M RagComponents :=
  init_rag id load_one_page no_loader id fixed_chroma failing_bm25 (Ok ())
           prepare clients base_dir.

Definition rag : RagComponents :=
  mkRag (fixed_semantic sem4) (fixed_chroma sem4) fixed_llm "Base"
        _get_source_label.

Definition names : gset string := {[ "b.pdf"; "a.pdf" ]}.

Definition session : list string :=
  [ "/filter b.pdf"; "/filter c.pdf"; question; "/historico"; "  "; question ].

(** A reply of the model with a blank line and padded lines. *)
Definition reply : string :=
  " Qual o prazo?" +:+ nl +:+ nl +:+ "  Qual o valor?  " +:+ nl.
Definition chain (q a : string) : outcome string := Ok reply.

End MoreExamples.

(** * Properties *)

(** ** Slices *)

Lemma py_take_nonneg {A} (n : Z) (l : list A) :
  0 ≤ n → Py.take n l = take (Z.to_nat n) l.
Proof. intros Hn. unfold Py.take. by rewrite decide_True. Qed.

Lemma py_take_length_le {A} (n : Z) (l : list A) :
  0 ≤ n → Z.of_nat (length (Py.take n l)) ≤ n.
Proof. intros Hn. rewrite py_take_nonneg, length_take by done. lia. Qed.

Lemma py_take_all {A} (n : Z) (l : list A) :
  Z.of_nat (length l) ≤ n → Py.take n l = l.
Proof.
  intros Hn. rewrite py_take_nonneg by lia. apply take_ge. lia.
Qed.

Lemma py_take_prefix {A} (n : Z) (l : list A) : Py.take n l `prefix_of` l.
Proof. unfold Py.take. case_decide; apply prefix_take. Qed.

(** ** The accumulator of the merge *)

Module HybridFacts.
Import Hybrid.

Lemma wf_acc0 : wf acc0.
Proof. split; [set_solver | constructor]. Qed.

Lemma wf_add a doc : wf a → wf (_add a doc).
Proof.
  intros [Hseen Hnd]. unfold _add. case_decide as Hin; [done |].
  split; simpl.
  - intros key. rewrite fmap_app, elem_of_app, elem_of_union, Hseen. simpl.
    rewrite elem_of_singleton, list_elem_of_singleton. tauto.
  - rewrite fmap_app. apply NoDup_app. split_and!; [done | | apply NoDup_singleton].
    intros key Hk ->%list_elem_of_singleton. by apply Hin, Hseen.
Qed.

Lemma wf_add_all docs a : wf a → wf (add_all a docs).
Proof.
  revert a. induction docs as [| doc docs IH]; intros a Ha; [done |].
  apply IH, wf_add, Ha.
Qed.

Lemma add_grows a doc :
  ∃ extra, result (_add a doc) = result a ++ extra ∧ (length extra ≤ 1)%nat.
Proof.
  unfold _add. case_decide.
  - exists []. by rewrite app_nil_r; simpl; auto.
  - exists [doc]. simpl. auto.
Qed.

Lemma add_all_grows docs a :
  ∃ extra, result (add_all a docs) = result a ++ extra
           ∧ (length extra ≤ length docs)%nat.
Proof.
  revert a. induction docs as [| doc docs IH]; intros a.
  - exists []. by rewrite app_nil_r; simpl; auto.
  - destruct (add_grows a doc) as (e1 & He1 & Hl1).
    destruct (IH (_add a doc)) as (e2 & He2 & Hl2).
    exists (e1 ++ e2). unfold add_all in *. simpl. rewrite He2, He1, <-app_assoc.
    split; [done |]. rewrite length_app. simpl. lia.
Qed.

Lemma add_all_length docs a :
  (length (result (add_all a docs)) ≤ length (result a) + length docs)%nat.
Proof.
  destruct (add_all_grows docs a) as (e & -> & Hl). rewrite length_app. lia.
Qed.

(** Fresh, pairwise distinct identities are all appended, in order. *)
Lemma add_all_fresh docs a :
  wf a →
  NoDup (dedup_key <$> docs) →
  (∀ doc, doc ∈ docs → dedup_key doc ∉ seen a) →
  result (add_all a docs) = result a ++ docs.
Proof.
  revert a. induction docs as [| doc docs IH]; intros a Ha Hnd Hfresh.
  - by rewrite app_nil_r.
  - rewrite fmap_cons in Hnd. apply NoDup_cons in Hnd as [Hnotin Hnd].
    assert (Hadd : _add a doc = mkAcc ({[dedup_key doc]} ∪ seen a) (result a ++ [doc])).
    { unfold _add. rewrite decide_False; [done |]. apply Hfresh. left. }
    simpl. change (foldl _add (_add a doc) docs) with (add_all (_add a doc) docs).
    rewrite IH.
    + rewrite Hadd. simpl. by rewrite <-app_assoc.
    + by apply wf_add.
    + done.
    + intros d Hd. rewrite Hadd. simpl. rewrite elem_of_union, elem_of_singleton.
      intros [Heq | Hin].
      * apply Hnotin. rewrite <-Heq. by apply list_elem_of_fmap_2.
      * eapply Hfresh; [right; exact Hd | done].
Qed.

Lemma after_semantic_length k sem :
  0 ≤ k → Z.of_nat (length (result (after_semantic k sem))) ≤ k `div` 2.
Proof.
  intros Hk. unfold after_semantic.
  pose proof (add_all_length (Py.take (k `div` 2) sem) acc0) as H1.
  pose proof (py_take_length_le (k `div` 2) sem) as H2. simpl in H1.
  assert (0 ≤ k `div` 2) by (apply Z.div_pos; lia). lia.
Qed.

Lemma after_bm25_length k sem bm25 :
  0 ≤ k → Z.of_nat (length (result (after_bm25 k sem bm25))) ≤ k.
Proof.
  intros Hk. unfold after_bm25. cbv zeta.
  pose proof (after_semantic_length k sem Hk) as Hs.
  set (a := after_semantic k sem) in *.
  assert (k `div` 2 ≤ k) by (apply Z.div_le_upper_bound; lia).
  pose proof (add_all_length (Py.take (k - Z.of_nat (length (result a))) bm25) a) as H1.
  pose proof (py_take_length_le (k - Z.of_nat (length (result a))) bm25) as H2.
  lia.
Qed.

Lemma merge_untruncated k sem bm25 :
  0 ≤ k → merge k sem bm25 = result (after_bm25 k sem bm25).
Proof.
  intros Hk. unfold merge. apply py_take_all. by apply after_bm25_length.
Qed.

Lemma wf_after_bm25 k sem bm25 : wf (after_bm25 k sem bm25).
Proof. unfold after_bm25, after_semantic. do 2 apply wf_add_all. apply wf_acc0. Qed.

(** The identity of the specification is the key the code computes. *)
Lemma substring_is_str_take (n : nat) (s : string) :
  String.substring 0 n s = Py.str_take n s.
Proof.
  revert s. induction n as [| n IH]; intros [| c s]; simpl; try done.
  by rewrite IH.
Qed.

Lemma identity_is_dedup_key (c : Document) : SpecWords.identity c = dedup_key c.
Proof. unfold SpecWords.identity, dedup_key, meta_get. by rewrite substring_is_str_take. Qed.

Lemma already_added_spec (added : list Document) (c : Document) :
  SpecWords.already_added added c = true ↔ dedup_key c ∈ dedup_key <$> added.
Proof.
  unfold SpecWords.already_added. rewrite existsb_exists, list_elem_of_fmap.
  split.
  - intros (c' & Hin & Heq). apply bool_decide_eq_true in Heq.
    rewrite !identity_is_dedup_key in Heq. exists c'.
    split; [done | by apply list_elem_of_In].
  - intros (c' & Heq & Hin). exists c'. split; [by apply list_elem_of_In |].
    apply bool_decide_eq_true. by rewrite !identity_is_dedup_key.
Qed.

(** One step of the code's loop is one step of the specification's. *)
Lemma add_is_take_chunk a doc :
  wf a → result (_add a doc) = SpecWords.take_chunk (result a) doc.
Proof.
  intros [Hseen _]. unfold _add, SpecWords.take_chunk.
  destruct (SpecWords.already_added (result a) doc) eqn:Hadded.
  - apply already_added_spec, Hseen in Hadded. by rewrite decide_True.
  - rewrite decide_False; [done |]. intros Hin%Hseen%already_added_spec. congruence.
Qed.

Lemma add_all_is_take_chunks docs a :
  wf a → result (add_all a docs) = foldl SpecWords.take_chunk (result a) docs.
Proof.
  revert a. induction docs as [| doc docs IH]; intros a Ha; [done |].
  change (add_all a (doc :: docs)) with (add_all (_add a doc) docs).
  rewrite IH by (by apply wf_add). simpl. by rewrite add_is_take_chunk.
Qed.

Lemma take_semantic_is_after_semantic k sem :
  0 ≤ k → SpecWords.take_semantic k sem = result (after_semantic k sem).
Proof.
  intros Hk. unfold SpecWords.take_semantic, after_semantic.
  rewrite add_all_is_take_chunks by apply wf_acc0.
  by rewrite py_take_nonneg by (apply Z.div_pos; lia).
Qed.

(** Within the remaining budget the walk of the specification never stops
    early: it is the plain loop over the list. *)
Lemma fill_within_budget k kw a :
  wf a →
  Z.of_nat (length (result a)) + Z.of_nat (length kw) ≤ k →
  SpecWords.fill k (result a) kw = result (add_all a kw).
Proof.
  revert a. induction kw as [| doc kw IH]; intros a Ha Hlen; [done |].
  simpl in *. rewrite decide_False by lia.
  change (add_all a (doc :: kw)) with (add_all (_add a doc) kw).
  rewrite <-IH.
  - by rewrite add_is_take_chunk.
  - by apply wf_add.
  - destruct (add_grows a doc) as (e & -> & He). rewrite length_app. lia.
Qed.

(** For a budget [k >= 0], the merge of the code is the merge of the
    specification run on the first [k - n] keyword results, [n] being the
    number of semantic results added. *)
Lemma merge_is_spec_on_prefix k sem kw :
  0 ≤ k →
  merge k sem kw
  = SpecWords.merge k sem
      (Py.take (k - Z.of_nat (length (result (after_semantic k sem)))) kw).
Proof.
  intros Hk. rewrite merge_untruncated by done.
  unfold SpecWords.merge, after_bm25. cbv zeta.
  rewrite take_semantic_is_after_semantic by done.
  rewrite fill_within_budget; [done | |].
  - unfold after_semantic. apply wf_add_all, wf_acc0.
  - pose proof (after_semantic_length k sem Hk).
    assert (k `div` 2 ≤ k) by (apply Z.div_le_upper_bound; lia).
    pose proof (py_take_length_le
                  (k - Z.of_nat (length (result (after_semantic k sem)))) kw).
    lia.
Qed.

End HybridFacts.

(** When both branches deliver, the retriever delivers their merge. *)
Lemma hybrid_delivers semantic bm25 k query w sem kw :
  (invoke semantic query w).1 = Ok sem →
  bm25_search bm25 query = Ok kw →
  (_get_relevant_documents semantic bm25 k query w).1 = Ok (Hybrid.merge k sem kw).
Proof.
  intros Hs Hk. unfold _get_relevant_documents.
  destruct (invoke semantic query w) as [r w1]. simpl in Hs. subst r.
  unfold bm25_invoke, bind, emit, lift. simpl. by rewrite Hk.
Qed.


(** ** The hybrid retriever *)

Section HybridClaims.
Import Hybrid HybridFacts.

Variables (semantic : BaseRetriever) (bm25 : BM25Retriever).
Variables (k : Z) (query : string) (w : World).
Variables (sem kw : list Document).

(** C1. With the budget [k] (8 in the program), for every query, every
    result list of the semantic branch and every result list of the keyword
    branch, which holds at most [k/2] results since the keyword index is
    built with [k = RETRIEVER_K // 2]: the retriever takes up to [k/2]
    semantic results in their returned order, then takes keyword results in
    their returned order until the combined count reaches [k], skipping any
    chunk whose deduplication identity (first 100 characters of text, source
    path) was already added. Its output is the merge the specification
    words. *)
Theorem hybrid_merge_as_specified :
  0 ≤ k →
  Z.of_nat (length kw) ≤ k `div` 2 →
  (invoke semantic query w).1 = Ok sem →
  bm25_search bm25 query = Ok kw →
  (_get_relevant_documents semantic bm25 k query w).1
    = Ok (SpecWords.merge k sem kw).
Proof.
  intros Hk Hkw Hs Hb.
  rewrite (hybrid_delivers _ _ _ _ _ _ _ Hs Hb).
  rewrite merge_is_spec_on_prefix by done.
  rewrite py_take_all; [done |].
  pose proof (after_semantic_length k sem Hk).
  assert (2 * (k `div` 2) ≤ k) by (apply Z.mul_div_le; lia).
  lia.
Qed.

(** C2. No two entries of the output share a deduplication identity:
    two positions of the output that hold chunks with the same
    [(first 100 characters, source)] are the same position. *)
Theorem hybrid_output_no_duplicate_identity :
  (invoke semantic query w).1 = Ok sem →
  bm25_search bm25 query = Ok kw →
  ∃ docs,
    (_get_relevant_documents semantic bm25 k query w).1 = Ok docs
    ∧ NoDup (dedup_key <$> docs)
    ∧ ∀ i j d1 d2,
        docs !! i = Some d1 → docs !! j = Some d2 →
        dedup_key d1 = dedup_key d2 → i = j.
Proof.
  intros Hs Hb. exists (merge k sem kw).
  split; [by apply hybrid_delivers |].
  assert (Hnd : NoDup (dedup_key <$> merge k sem kw)).
  { pose proof (wf_after_bm25 k sem kw) as [_ Hall].
    destruct (py_take_prefix k (result (after_bm25 k sem kw))) as [tl Htl].
    unfold merge. rewrite Htl, fmap_app in Hall.
    by apply NoDup_app in Hall as [? _]. }
  split; [done |].
  intros i j d1 d2 Hi Hj Heq.
  eapply NoDup_lookup; [exact Hnd | |].
  - rewrite list_lookup_fmap, Hi. reflexivity.
  - rewrite list_lookup_fmap, Hj. simpl. by rewrite Heq.
Qed.

(** C3. With a budget [k >= 0], the output has at most [k] entries, however
    many candidates the two branches deliver. *)
Theorem hybrid_output_within_budget :
  0 ≤ k →
  (invoke semantic query w).1 = Ok sem →
  bm25_search bm25 query = Ok kw →
  ∃ docs,
    (_get_relevant_documents semantic bm25 k query w).1 = Ok docs
    ∧ Z.of_nat (length docs) ≤ k.
Proof.
  intros Hk Hs Hb. exists (merge k sem kw).
  split; [by apply hybrid_delivers |].
  by apply py_take_length_le.
Qed.

(** C4, as amended. With a budget [k >= 0], when the semantic results taken
    (the first [k/2]) have pairwise distinct identities, the first
    [min(k/2, len(sem))] entries of the output are the semantic results, in
    order, whatever the keyword branch delivers. *)
Theorem hybrid_semantic_first :
  0 ≤ k →
  NoDup (dedup_key <$> Py.take (k `div` 2) sem) →
  (invoke semantic query w).1 = Ok sem →
  bm25_search bm25 query = Ok kw →
  let m := Z.to_nat (Z.min (k `div` 2) (Z.of_nat (length sem))) in
  ∃ docs,
    (_get_relevant_documents semantic bm25 k query w).1 = Ok docs
    ∧ take m docs = take m sem.
Proof.
  intros Hk Hnd Hs Hb m. exists (merge k sem kw).
  split; [by apply hybrid_delivers |].
  assert (Hhalf : 0 ≤ k `div` 2) by (apply Z.div_pos; lia).
  rewrite merge_untruncated by done.
  unfold after_bm25. cbv zeta.
  assert (Hsem : result (after_semantic k sem) = Py.take (k `div` 2) sem).
  { unfold after_semantic. rewrite add_all_fresh; [done | apply wf_acc0 | done |].
    intros doc _. simpl. set_solver. }
  destruct (add_all_grows
              (Py.take (k - Z.of_nat (length (result (after_semantic k sem)))) kw)
              (after_semantic k sem)) as (extra & -> & _).
  rewrite Hsem, py_take_nonneg by done.
  assert (Hm : m = length (take (Z.to_nat (k `div` 2)) sem)).
  { rewrite length_take. unfold m. lia. }
  rewrite Hm, take_app_length, length_take.
  destruct (Nat.le_ge_cases (Z.to_nat (k `div` 2)) (length sem)).
  - by rewrite Nat.min_l.
  - rewrite Nat.min_r by done. by rewrite !take_ge.
Qed.

End HybridClaims.

Section HybridExamples.
Import Examples.

Lemma hybrid_merge_as_specified_witness :
  (_get_relevant_documents (fixed_semantic sem4) (fixed_bm25 kw2)
                           RETRIEVER_K "q" w0).1
  = Ok (SpecWords.merge RETRIEVER_K sem4 kw2).
Proof.
  apply (hybrid_merge_as_specified
           (fixed_semantic sem4) (fixed_bm25 kw2) RETRIEVER_K "q" w0 sem4 kw2);
    [vm_compute; discriminate | vm_compute; discriminate
    | reflexivity | reflexivity].
Defined.

(** The bound on the keyword results is needed. Were the keyword branch to
    deliver five results for four semantic ones, the first four of them
    being the semantic ones, the retriever would look at the first four
    keyword results only, skip them all and return four chunks, where the
    walk of the specification goes on to the fifth. *)
Lemma keyword_bound_is_needed :
  (_get_relevant_documents (fixed_semantic sem4) (fixed_bm25 kw5)
                           RETRIEVER_K "q" w0).1
    = Ok [d_a; d_b; d_c; d_d]
  ∧ SpecWords.merge RETRIEVER_K sem4 kw5 = [d_a; d_b; d_c; d_d; d_e].
Proof. split; by vm_compute. Qed.

Lemma hybrid_output_no_duplicate_identity_witness :
  ∃ docs,
    (_get_relevant_documents (fixed_semantic sem_pages) (fixed_bm25 kw5)
                             8 "q" w0).1 = Ok docs
    ∧ NoDup (dedup_key <$> docs)
    ∧ ∀ i j d1 d2,
        docs !! i = Some d1 → docs !! j = Some d2 →
        dedup_key d1 = dedup_key d2 → i = j.
Proof.
  apply (hybrid_output_no_duplicate_identity
           (fixed_semantic sem_pages) (fixed_bm25 kw5) 8 "q" w0 sem_pages kw5);
    reflexivity.
Defined.

Lemma hybrid_output_within_budget_witness :
  ∃ docs,
    (_get_relevant_documents (fixed_semantic sem4) (fixed_bm25 kw5)
                             8 "q" w0).1 = Ok docs
    ∧ Z.of_nat (length docs) ≤ 8.
Proof.
  apply (hybrid_output_within_budget
           (fixed_semantic sem4) (fixed_bm25 kw5) 8 "q" w0 sem4 kw5);
    [lia | reflexivity | reflexivity].
Defined.

Lemma hybrid_semantic_first_witness :
  ∃ docs,
    (_get_relevant_documents (fixed_semantic sem4) (fixed_bm25 kw5)
                             8 "q" w0).1 = Ok docs
    ∧ take 4 docs = take 4 sem4.
Proof.
  apply (hybrid_semantic_first
           (fixed_semantic sem4) (fixed_bm25 kw5) 8 "q" w0 sem4 kw5);
    [lia | | reflexivity | reflexivity].
  apply (bool_decide_unpack _). vm_compute. exact I.
Defined.

(** C4, as stated, fails. The two branches share no identity, but the two
    semantic results are chunks of one file that start with the same page
    header: the second is skipped, and the second entry of the output is a
    keyword result. *)
Lemma hybrid_semantic_first_counterexample :
  non_overlapping sem_pages [d_e]
  ∧ ∃ docs,
      (_get_relevant_documents (fixed_semantic sem_pages) (fixed_bm25 [d_e])
                               RETRIEVER_K "q" w0).1 = Ok docs
      ∧ take (Z.to_nat (Z.min (RETRIEVER_K `div` 2) (Z.of_nat (length sem_pages)))) docs
        ≠ take (Z.to_nat (Z.min (RETRIEVER_K `div` 2) (Z.of_nat (length sem_pages)))) sem_pages.
Proof.
  split.
  - intros d1 d2 Hd1 Hd2. apply list_elem_of_singleton in Hd2 as ->.
    unfold sem_pages in Hd1.
    apply elem_of_cons in Hd1 as [-> | Hd1];
      [| apply list_elem_of_singleton in Hd1 as ->];
      intros H; vm_compute in H; discriminate H.
  - exists [d_p1; d_e]. split; [by vm_compute |].
    intros H. apply (f_equal (fmap page_content)) in H.
    vm_compute in H. discriminate H.
Qed.

End HybridExamples.


(** ** The retriever factory *)

Section CreateRetrieverClaims.

Variable from_documents : list Document → Z → outcome BM25Retriever.
Variable set_attribute : outcome unit.
Variables (vectorstore : Chroma) (chunks : option (list Document)).
Variable use_hybrid : bool.

(** C5. When the keyword index is unavailable (the chunk list is absent or
    empty, or building the keyword index raises), and also when the
    constructor of the hybrid retriever raises, the retriever handed out is
    the plain semantic retriever with budget [RETRIEVER_K]: invoking it is
    the unfiltered similarity search for [RETRIEVER_K] results. *)
Theorem create_retriever_degrades_to_semantic :
  (chunks = None ∨ chunks = Some []
   ∨ (∃ l e, chunks = Some l
             ∧ from_documents l (RETRIEVER_K `div` 2) = Raise e)
   ∨ ∃ e, set_attribute = Raise e) →
  _create_retriever from_documents set_attribute vectorstore chunks use_hybrid
    = as_retriever vectorstore RETRIEVER_K
  ∧ ∀ q w,
      invoke (_create_retriever from_documents set_attribute vectorstore
                                chunks use_hybrid) q w
      = similarity_search vectorstore q RETRIEVER_K None w.
Proof.
  intros Hun.
  assert (Heq : _create_retriever from_documents set_attribute vectorstore
                                  chunks use_hybrid
                = as_retriever vectorstore RETRIEVER_K).
  { unfold _create_retriever, _HybridRetriever_init.
    destruct Hun as [-> | [-> | [(l & e & -> & Hraise) | (e & ->)]]].
    - by rewrite andb_false_r.
    - by rewrite andb_false_r.
    - simpl. rewrite Hraise. by destruct (use_hybrid && Py.list_bool l).
    - destruct (use_hybrid && _); [| done].
      by destruct (from_documents _ _). }
  split; [exact Heq |]. intros q w. by rewrite Heq.
Qed.

End CreateRetrieverClaims.

Lemma create_retriever_degrades_to_semantic_witness :
  _create_retriever Examples.failing_bm25 (Ok ())
      (Examples.fixed_chroma Examples.sem4) (Some Examples.kw5) true
    = as_retriever (Examples.fixed_chroma Examples.sem4) RETRIEVER_K
  ∧ ∀ q w,
      invoke (_create_retriever Examples.failing_bm25 (Ok ())
                (Examples.fixed_chroma Examples.sem4) (Some Examples.kw5) true) q w
      = similarity_search (Examples.fixed_chroma Examples.sem4) q RETRIEVER_K None w.
Proof.
  apply (create_retriever_degrades_to_semantic Examples.failing_bm25 (Ok ())
           (Examples.fixed_chroma Examples.sem4) (Some Examples.kw5) true).
  right. right. left. exists Examples.kw5, (Exception "ZeroDivisionError").
  split; reflexivity.
Defined.


(** ** The retrieval service *)

Lemma source_matches_spec (filter_source : string) (d : Document) :
  source_matches filter_source d = true
  ↔ Py.contains filter_source (meta_get d "source") = true
    ∨ meta_get d "filename" = filter_source.
Proof.
  unfold source_matches. rewrite orb_true_iff, bool_decide_eq_true. tauto.
Qed.

Section RetrievalServiceClaims.

Variable resolve : string → string.
Variables (question : string) (retriever : BaseRetriever).
Variables (llm : AzureChatOpenAI) (pdf_dir : string).
Variable history : option (list (string * string)).

Lemma answer_from_docs_empty w :
  answer_from_docs question llm history [] w = (Ok (NOTHING_FOUND, []), w).
Proof. reflexivity. Qed.

(** With at least one chunk the model is called once, with the context
    built from the chunks, and its reply is returned with the chunks. *)
Lemma answer_from_docs_nonempty docs w :
  docs ≠ [] →
  answer_from_docs question llm history docs w
  = (match llm_reply llm question (build_context docs) (build_history history) with
     | Ok content => Ok (content, docs)
     | Raise e => Raise e
     end,
     logged w [CallLLM question (build_context docs) (build_history history)]).
Proof.
  intros Hne. destruct docs as [| d docs]; [done |].
  unfold answer_from_docs, bind, chain_invoke, bind, emit, lift, ret. simpl.
  by destruct (llm_reply llm question _ _).
Qed.

(** C6. With a source filter set (a non-empty string), a vector store that
    counts as true in [if filter_source and vectorstore], and a question that
    is not a question about the corpus: when the
    search with the exact filter on [filename] delivers no chunk, or raises,
    the service searches again without filter for [2 * RETRIEVER_K]
    candidates, keeps exactly the candidates whose [source] contains the
    filter string or whose [filename] equals it, in order, and cuts the list
    to [RETRIEVER_K]. If nothing is left it returns the fixed message with
    an empty source list, and the language model is not called. *)
Theorem filtered_search_falls_back
    (filter_source : string) (vs : Chroma) (w : World)
    (all_docs : list Document) :
  _is_question_about_pdfs_in_base question = false →
  filter_source ≠ "" →
  chroma_bool vs = true →
  (chroma_search vs question RETRIEVER_K (Some ("filename", filter_source)) = Ok []
   ∨ ∃ e, chroma_search vs question RETRIEVER_K (Some ("filename", filter_source))
          = Raise e) →
  chroma_search vs question (RETRIEVER_K * 2) None = Ok all_docs →
  let docs :=
    take 8 (filter (λ d, Py.contains filter_source (meta_get d "source") = true
                         ∨ meta_get d "filename" = filter_source) all_docs) in
  let w' :=
    logged w [CallSimilaritySearch question RETRIEVER_K
                (Some ("filename", filter_source));
              CallSimilaritySearch question (RETRIEVER_K * 2) None] in
  answer_question resolve question retriever llm pdf_dir history
                  (Some filter_source) (Some vs) w
    = answer_from_docs question llm history docs w'
  ∧ (docs = [] →
     answer_question resolve question retriever llm pdf_dir history
                     (Some filter_source) (Some vs) w
       = (Ok (NOTHING_FOUND, []), w')).
Proof.
  intros Hmeta Hfs Hvs Hfirst Hall docs w'.
  assert (Hdocs : docs = Py.take RETRIEVER_K
            (filter (λ d, source_matches filter_source d = true) all_docs)).
  { unfold docs. rewrite py_take_nonneg by (unfold RETRIEVER_K; lia).
    change (Z.to_nat RETRIEVER_K) with 8%nat. f_equal.
    apply list_filter_iff. intros d. symmetry. apply source_matches_spec. }
  assert (Hsearch :
    filtered_search vs question filter_source w = (Ok docs, w')).
  { unfold filtered_search, bind, try_except, similarity_search, bind, emit,
      lift, ret.
    destruct Hfirst as [-> | [e ->]]; cbn [Py.list_bool negb];
      rewrite Hall; unfold w', logged; cbn [env fs calls];
      rewrite <-app_assoc; by rewrite Hdocs. }
  assert (Hanswer :
    answer_question resolve question retriever llm pdf_dir history
                    (Some filter_source) (Some vs) w = answer_from_docs question llm history docs w').
  { unfold answer_question. rewrite Hmeta, Hvs.
    unfold Py.str_bool. rewrite bool_decide_eq_false_2 by done. simpl.
    unfold bind at 1. by rewrite Hsearch. }
  split; [exact Hanswer |].
  intros Hnil. rewrite Hanswer, Hnil. apply answer_from_docs_empty.
Qed.


(** C10. Without a vector store the source filter has no effect: the
    answer is the one given with no filter at all, and for a question that
    is not about the corpus the chunks are those the retriever delivers,
    none being dropped for its source. *)
Theorem filter_ignored_without_vectorstore
    (filter_source : option string) (vectorstore' : option Chroma) (w : World) :
  answer_question resolve question retriever llm pdf_dir history
                  filter_source None w
    = answer_question resolve question retriever llm pdf_dir history
                      None vectorstore' w
  ∧ (_is_question_about_pdfs_in_base question = false →
     ∀ docs w1,
       invoke retriever question w = (Ok docs, w1) →
       answer_question resolve question retriever llm pdf_dir history
                       filter_source None w
         = answer_from_docs question llm history docs w1).
Proof.
  split.
  - unfold answer_question. by destruct filter_source.
  - intros Hmeta docs w1 Hinv. unfold answer_question. rewrite Hmeta.
    assert (Hsel :
      match filter_source, @None Chroma with
      | Some fs', Some vs =>
          if Py.str_bool fs' && chroma_bool vs
          then filtered_search vs question fs'
          else invoke retriever question
      | _, _ => invoke retriever question
      end = invoke retriever question) by (by destruct filter_source).
    rewrite Hsel. unfold bind at 1. by rewrite Hinv.
Qed.

End RetrievalServiceClaims.

Section RetrievalServiceExamples.
Import Examples.

(** Scenario D: a filter naming no file of the corpus, on an index without
    [filename] metadata. *)
Lemma filtered_search_falls_back_witness :
  answer_question id "Qual o valor do contrato?" (fixed_semantic sem4)
                  fixed_llm "Base" None
                  (Some "inexistente.pdf") (Some legacy_chroma) w0
  = (Ok (NOTHING_FOUND, []),
     logged w0 [CallSimilaritySearch "Qual o valor do contrato?" RETRIEVER_K
                  (Some ("filename", "inexistente.pdf"));
                CallSimilaritySearch "Qual o valor do contrato?"
                  (RETRIEVER_K * 2) None]).
Proof.
  destruct (filtered_search_falls_back id "Qual o valor do contrato?"
              (fixed_semantic sem4) fixed_llm "Base" None
              "inexistente.pdf" legacy_chroma w0 [d_a; d_anexo])
    as [_ Hempty];
    [vm_compute; reflexivity | discriminate | reflexivity
    | left; reflexivity | reflexivity |].
  apply Hempty. vm_compute. reflexivity.
Defined.


Lemma filter_ignored_without_vectorstore_witness :
  answer_question id "Qual o valor do contrato?" (fixed_semantic sem4)
                  fixed_llm "Base" None (Some "anexo.pdf") None w0
  = answer_from_docs "Qual o valor do contrato?" fixed_llm None sem4
      (logged w0 [CallSimilaritySearch "Qual o valor do contrato?"
                    RETRIEVER_K None]).
Proof.
  destruct (filter_ignored_without_vectorstore id "Qual o valor do contrato?"
              (fixed_semantic sem4) fixed_llm "Base" None
              (Some "anexo.pdf") None w0) as [_ Hdocs].
  apply Hdocs; [vm_compute; reflexivity | reflexivity].
Defined.

End RetrievalServiceExamples.


(** ** The index store *)

Lemma sorted_glob_pdf_nil (dir : string) (entries : gmap string FileData) :
  filter (PyPath.endswith ".pdf") (elements (dom entries)) = [] →
  PyPath.sorted_glob_pdf dir entries = [].
Proof. intros H. unfold PyPath.sorted_glob_pdf. by rewrite H. Qed.

Lemma sorted_glob_pdf_empty (dir : string) : PyPath.sorted_glob_pdf dir ∅ = [].
Proof. apply sorted_glob_pdf_nil. by rewrite dom_empty_L, elements_empty. Qed.

(** The client leaves a directory that has a database as it is, and
    creates an empty database in a directory that has none. *)
Lemma Chroma_client_spec (dir : string) (w : World) :
  Chroma_client dir w
  = (Ok (),
     match default ∅ (fs w !! dir) !! chroma_db_name with
     | Some _ => w
     | None =>
         mkWorld (env w)
                 (<[dir := <[chroma_db_name := VectorDB []]>
                             (default ∅ (fs w !! dir))]> (fs w))
                 (calls w)
     end).
Proof.
  destruct w as [e f c].
  cbv beta iota zeta delta [Chroma_client bind read_dir write_file get_world
    set_fs ret]. simpl.
  by destruct (default ∅ (f !! dir) !! chroma_db_name).
Qed.

Section IndexStoreClaims.

Variable resolve : string → string.
Variable PyMuPDFLoader_load : string → outcome (list Document).
Variable PyPDFLoader_load : string → outcome (list Document).
Variable split_documents : list Document → list Document.
Variable chroma_handle : list Document → Chroma.
Variables (pdf_dir persist_dir : string).
Variable embeddings : AzureOpenAIEmbeddings.

Local Abbreviation build :=
  (_build_vectorstore resolve PyMuPDFLoader_load PyPDFLoader_load
                      split_documents chroma_handle
                      pdf_dir persist_dir embeddings).

Local Abbreviation rebuild_ :=
  (rebuild resolve PyMuPDFLoader_load PyPDFLoader_load
           split_documents chroma_handle pdf_dir persist_dir embeddings).

(** On the rebuild path the rebuild proper starts from an empty persist
    directory, whatever was there. *)
Lemma build_on_rebuild_path (w : World) :
  (reindex_requested (default "" (env w !! "REINDEX")) = true
   ∨ default ∅ (fs w !! persist_dir) = ∅) →
  build w = rebuild_ (mkWorld (env w) (<[persist_dir := ∅]> (fs w)) (calls w)).
Proof.
  intros Hpath. destruct w as [e f c]. simpl in *.
  cbv beta iota zeta delta [_build_vectorstore bind mkdir rmtree getenv
    read_dir get_world set_fs ret Chroma_open].
  simpl.
  destruct (f !! persist_dir) as [entries |] eqn:Hp; simpl.
  - rewrite Hp. simpl.
    destruct (reindex_requested (default "" (e !! "REINDEX"))); simpl.
    + rewrite lookup_delete_eq. simpl. by rewrite insert_delete_eq.
    + simpl in Hpath. destruct Hpath as [? | ->]; [done |].
      rewrite bool_decide_eq_true_2 by done. simpl.
      by rewrite insert_id.
  - rewrite lookup_insert_eq. simpl.
    rewrite (bool_decide_eq_true_2 (∅ = ∅)) by done. rewrite andb_false_r.
    destruct (reindex_requested (default "" (e !! "REINDEX"))); simpl.
    + rewrite lookup_delete_eq. simpl.
      by rewrite insert_delete_eq, insert_insert_eq.
    + done.
Qed.

(** C8. On the rebuild path (a reindex is requested, or the persist
    directory is absent or empty), when the resolved PDF directory does not
    exist or holds no PDF file, the build raises a [ValueError] whose
    message ends with the resolved directory; no index is returned. *)
Theorem build_fails_without_pdfs (w : World) :
  (reindex_requested (default "" (env w !! "REINDEX")) = true
   ∨ default ∅ (fs w !! persist_dir) = ∅) →
  match fs w !! resolve pdf_dir with
  | None => True
  | Some pdfs => filter (PyPath.endswith ".pdf") (elements (dom pdfs)) = []
  end →
  ∃ msg w',
    build w = (Raise (ValueError msg), w')
    ∧ (msg = "Pasta nao encontrada: " +:+ resolve pdf_dir
       ∨ msg = "Nenhum PDF encontrado em " +:+ resolve pdf_dir).
Proof.
  intros Hpath Hpdf. rewrite build_on_rebuild_path by done.
  unfold rebuild, bind, read_dir, raise. simpl.
  destruct (decide (persist_dir = resolve pdf_dir)) as [<- | Hne].
  - rewrite lookup_insert_eq, sorted_glob_pdf_empty. simpl. eauto.
  - rewrite lookup_insert_ne by done.
    destruct (fs w !! resolve pdf_dir) as [pdfs |]; [| eauto].
    rewrite sorted_glob_pdf_nil by done. simpl. eauto.
Qed.

(** The reuse path: without a reindex request a non-empty persist
    directory is opened as it is, whatever it holds; the only file written
    is an empty database when the directory has none. *)
Lemma nonempty_directory_is_reused (w : World) (entries : gmap string FileData) :
  reindex_requested (default "" (env w !! "REINDEX")) = false →
  fs w !! persist_dir = Some entries →
  entries ≠ ∅ →
  build w
  = (Ok (chroma_handle (indexed_chunks entries),
         match entries !! chunks_name with
         | Some d =>
             match pickle_load d with
             | Ok chunks => Some chunks
             | Raise _ => None
             end
         | None => None
         end),
     match entries !! chroma_db_name with
     | Some _ => w
     | None =>
         mkWorld (env w)
                 (<[persist_dir := <[chroma_db_name := VectorDB []]> entries]> (fs w))
                 (calls w)
     end).
Proof.
  intros Hforce Hp Hne. destruct w as [e f c]. simpl in *.
  cbv beta iota zeta delta [_build_vectorstore bind mkdir rmtree getenv
    read_dir get_world set_fs ret Chroma_open].
  simpl. rewrite Hp. simpl. rewrite Hp, Hforce. simpl.
  rewrite bool_decide_eq_false_2 by done. simpl.
  rewrite Chroma_client_spec. simpl. rewrite Hp. simpl.
  unfold indexed_chunks.
  destruct (entries !! chroma_db_name) as [d |] eqn:Hdb; simpl.
  - rewrite Hp. simpl. by rewrite Hdb.
  - rewrite !lookup_insert_eq. simpl. by rewrite lookup_insert_eq.
Qed.

(** A rebuild during which the embedding provider fails raises the
    provider's error and leaves in the persist directory the chunk list and
    a database without vectors. *)
Lemma failed_embedding_leaves_chunk_list
    (w : World) (pdfs : gmap string FileData) (e : exn) :
  persist_dir ≠ resolve pdf_dir →
  (reindex_requested (default "" (env w !! "REINDEX")) = true
   ∨ default ∅ (fs w !! persist_dir) = ∅) →
  fs w !! resolve pdf_dir = Some pdfs →
  PyPath.sorted_glob_pdf (resolve pdf_dir) pdfs ≠ [] →
  let chunks :=
    split_documents
      (set_filename <$>
         mjoin (_load_pdf PyMuPDFLoader_load PyPDFLoader_load <$>
                  PyPath.sorted_glob_pdf (resolve pdf_dir) pdfs)) in
  embed_documents embeddings (page_content <$> chunks) = Raise e →
  ∃ w1,
    build w = (Raise e, w1)
    ∧ env w1 = env w
    ∧ fs w1 !! persist_dir
      = Some {[ chunks_name := PickledChunks chunks;
                chroma_db_name := VectorDB [] ]}.
Proof.
  intros Hne Hpath Hpdfs Hfiles chunks Hembed.
  rewrite build_on_rebuild_path by done.
  cbv beta iota zeta delta [rebuild bind read_dir raise write_file get_world
    set_fs ret Chroma_from_documents emit lift logged].
  cbn [env fs calls]. rewrite lookup_insert_ne, Hpdfs by done.
  assert (Hbool : negb (Py.list_bool (PyPath.sorted_glob_pdf (resolve pdf_dir) pdfs))
                  = false).
  { by destruct (PyPath.sorted_glob_pdf (resolve pdf_dir) pdfs). }
  rewrite Hbool. cbn [env fs calls]. fold chunks.
  rewrite Chroma_client_spec. cbn [env fs calls].
  rewrite !lookup_insert_eq. simpl.
  assert (Hnone : (<[chunks_name := PickledChunks chunks]> ∅ : gmap string FileData)
                  !! chroma_db_name = None).
  { by rewrite lookup_insert_ne, lookup_empty. }
  rewrite Hnone, Hembed.
  eexists. split; [reflexivity |].
  cbn [env fs calls]. split; [done |].
  rewrite lookup_insert_eq. reflexivity.
Qed.

End IndexStoreClaims.

Section IndexStoreExamples.
Import Examples.

(** Scenario C: a forced reindex over a corpus directory without PDF. *)
Lemma build_fails_without_pdfs_witness :
  ∃ msg w',
    build working_embeddings w_empty_forced = (Raise (ValueError msg), w')
    ∧ (msg = "Pasta nao encontrada: " +:+ "Base"
       ∨ msg = "Nenhum PDF encontrado em " +:+ "Base").
Proof.
  apply (build_fails_without_pdfs id load_one_page no_loader id fixed_chroma
           "Base" "vectorstore" working_embeddings w_empty_forced).
  - left. vm_compute. reflexivity.
  - vm_compute. reflexivity.
Defined.

(** C7 does not hold of the code. A first build on an absent persist
    directory, during which the embedding provider fails: the build raises
    the provider's error, but the chunk list is already written and the
    database already created, so the persist directory is left holding
    [chunks.pkl] and a database without vectors. The next build, without
    forced reindex and with a working provider, finds the directory
    non-empty and reuses it: it embeds nothing, writes nothing, and returns
    a handle on an index without chunks, together with the chunk list. *)
Theorem failed_build_is_reused :
  let first := build failing_embeddings w_base in
  first.1 = Raise (Exception "APITimeoutError")
  ∧ fs first.2 !! "vectorstore"
    = Some {[ "chunks.pkl" := PickledChunks base_chunks;
              "chroma.sqlite3" := VectorDB [] ]}
  ∧ calls first.2 = [CallEmbed (page_content <$> base_chunks)]
  ∧ build working_embeddings first.2
    = (Ok (fixed_chroma [], Some base_chunks), first.2).
Proof. vm_compute. split_and!; reflexivity. Qed.

End IndexStoreExamples.

(** * Further properties of the code *)

(** ** The hybrid retriever, continued *)

Module HybridMore.
Import Hybrid HybridFacts.

Lemma add_selects a doc :
  ∃ extra, result (_add a doc) = result a ++ extra ∧ extra `sublist_of` [doc].
Proof.
  unfold _add. case_decide.
  - exists []. rewrite app_nil_r. split; [done | apply sublist_nil_l].
  - exists [doc]. done.
Qed.

Lemma add_all_selects docs a :
  ∃ extra, result (add_all a docs) = result a ++ extra ∧ extra `sublist_of` docs.
Proof.
  revert a. induction docs as [| doc docs IH]; intros a.
  - exists []. by rewrite app_nil_r.
  - destruct (add_selects a doc) as (e1 & He1 & Hs1).
    destruct (IH (_add a doc)) as (e2 & He2 & Hs2).
    exists (e1 ++ e2). unfold add_all in *. simpl. rewrite He2, He1, <-app_assoc.
    split; [done |]. by apply (sublist_app e1 [doc] e2 docs).
Qed.

Lemma prefix_sublist {A} (l1 l2 : list A) : l1 `prefix_of` l2 → l1 `sublist_of` l2.
Proof. intros [tl ->]. by apply sublist_inserts_r. Qed.

Lemma merge_selects k sem kw : merge k sem kw `sublist_of` sem ++ kw.
Proof.
  unfold merge. etrans; [apply prefix_sublist, py_take_prefix |].
  unfold after_bm25. cbv zeta.
  destruct (add_all_selects
              (Py.take (k - Z.of_nat (length (result (after_semantic k sem)))) kw)
              (after_semantic k sem)) as (e2 & -> & Hs2).
  unfold after_semantic.
  destruct (add_all_selects (Py.take (k `div` 2) sem) acc0) as (e1 & -> & Hs1).
  simpl. apply sublist_app.
  - etrans; [exact Hs1 | apply prefix_sublist, py_take_prefix].
  - etrans; [exact Hs2 | apply prefix_sublist, py_take_prefix].
Qed.

Lemma seen_add a doc : dedup_key doc ∈ seen (_add a doc).
Proof. unfold _add. case_decide; [done |]. simpl. set_solver. Qed.

Lemma seen_add_mono a doc key : key ∈ seen a → key ∈ seen (_add a doc).
Proof. unfold _add. case_decide; [done |]. simpl. set_solver. Qed.

Lemma seen_add_all_mono docs a key : key ∈ seen a → key ∈ seen (add_all a docs).
Proof.
  revert a. induction docs as [| doc docs IH]; intros a Hin; [done |].
  apply IH, seen_add_mono, Hin.
Qed.

Lemma seen_add_all docs a doc : doc ∈ docs → dedup_key doc ∈ seen (add_all a docs).
Proof.
  revert a. induction docs as [| d docs IH]; intros a Hin.
  - by apply elem_of_nil in Hin.
  - change (add_all a (d :: docs)) with (add_all (_add a d) docs).
    apply elem_of_cons in Hin as [-> | Hin].
    + apply seen_add_all_mono, seen_add.
    + by apply IH.
Qed.

End HybridMore.

Section HybridMoreClaims.
Import Hybrid HybridFacts HybridMore.

Variables (semantic : BaseRetriever) (bm25 : BM25Retriever).
Variables (k : Z) (query : string) (w : World).
Variables (sem kw : list Document).

(** X1. The output is a selection from what the branches delivered: it is a
    sublist of the semantic results followed by the keyword results, so
    every chunk returned was delivered by a branch, semantic chunks come
    before keyword chunks, and the order inside each branch is kept. *)
Theorem hybrid_output_is_ordered_selection :
  (invoke semantic query w).1 = Ok sem →
  bm25_search bm25 query = Ok kw →
  ∃ docs,
    (_get_relevant_documents semantic bm25 k query w).1 = Ok docs
    ∧ docs `sublist_of` sem ++ kw
    ∧ ∀ d, d ∈ docs → d ∈ sem ∨ d ∈ kw.
Proof.
  intros Hs Hb. exists (merge k sem kw).
  split; [by apply hybrid_delivers |].
  pose proof (merge_selects k sem kw) as Hsub.
  split; [exact Hsub |].
  intros d Hd. apply elem_of_app. eapply elem_of_sublist; [exact Hd | exact Hsub].
Qed.

(** X2. With a budget [k >= 0], no identity that was looked at is lost:
    each of the first [k/2] semantic results, and each of the first [k - n]
    keyword results ([n] the number of semantic results added), has a chunk
    with its identity in the output. *)
Theorem hybrid_output_covers_identities :
  0 ≤ k →
  (invoke semantic query w).1 = Ok sem →
  bm25_search bm25 query = Ok kw →
  let n := Z.of_nat (length (result (after_semantic k sem))) in
  ∃ docs,
    (_get_relevant_documents semantic bm25 k query w).1 = Ok docs
    ∧ ∀ d, d ∈ Py.take (k `div` 2) sem ++ Py.take (k - n) kw →
           ∃ d', d' ∈ docs ∧ dedup_key d' = dedup_key d.
Proof.
  intros Hk Hs Hb n. exists (merge k sem kw).
  split; [by apply hybrid_delivers |].
  intros d Hd. rewrite merge_untruncated by done.
  destruct (wf_after_bm25 k sem kw) as [Hseen _].
  assert (Hin : dedup_key d ∈ seen (after_bm25 k sem kw)).
  { unfold after_bm25. cbv zeta. fold n.
    apply elem_of_app in Hd as [Hd | Hd].
    - apply seen_add_all_mono. unfold after_semantic. by apply seen_add_all.
    - by apply seen_add_all. }
  apply Hseen, list_elem_of_fmap in Hin as (d' & Heq & Hd').
  exists d'. split; [exact Hd' | by symmetry].
Qed.

(** X3. With a budget [k >= 0], when the keyword branch delivers nothing the
    output holds at most [k/2] chunks, all of them among the first [k/2]
    semantic results: the second half of the budget is not given to the
    semantic branch. *)
Theorem hybrid_without_keyword_hits :
  0 ≤ k →
  (invoke semantic query w).1 = Ok sem →
  bm25_search bm25 query = Ok [] →
  ∃ docs,
    (_get_relevant_documents semantic bm25 k query w).1 = Ok docs
    ∧ Z.of_nat (length docs) ≤ k `div` 2
    ∧ docs `sublist_of` Py.take (k `div` 2) sem.
Proof.
  intros Hk Hs Hb. exists (merge k sem []).
  split; [by apply hybrid_delivers |].
  rewrite merge_untruncated by done.
  assert (Heq : result (after_bm25 k sem []) = result (after_semantic k sem)).
  { unfold after_bm25, Py.take. cbv zeta. case_decide; by rewrite take_nil. }
  rewrite Heq. split; [by apply after_semantic_length |].
  unfold after_semantic.
  by destruct (add_all_selects (Py.take (k `div` 2) sem) acc0) as (e1 & -> & Hs1).
Qed.

(** X4. A failure of either branch is the failure of the retriever, and the
    keyword search is called in both cases: when the semantic branch raises,
    its error is the one raised; when the semantic branch delivers and the
    keyword branch raises, the keyword error is raised. *)
Theorem hybrid_propagates_failures (e : exn) (w1 : World) :
  (invoke semantic query w = (Raise e, w1) →
   _get_relevant_documents semantic bm25 k query w
   = (Raise e, logged w1 [CallBM25 query]))
  ∧ (invoke semantic query w = (Ok sem, w1) →
     bm25_search bm25 query = Raise e →
     _get_relevant_documents semantic bm25 k query w
     = (Raise e, logged w1 [CallBM25 query])).
Proof.
  split.
  - intros Hs. unfold _get_relevant_documents. rewrite Hs.
    unfold bm25_invoke, bind, emit, lift. simpl.
    by destruct (bm25_search bm25 query).
  - intros Hs Hb. unfold _get_relevant_documents. rewrite Hs.
    unfold bm25_invoke, bind, emit, lift. simpl. by rewrite Hb.
Qed.

(** X5. With a budget [k >= 2], the first semantic result is the first
    entry of the output. *)
Theorem hybrid_top_semantic_hit_first (d : Document) (rest : list Document) :
  2 ≤ k →
  (invoke semantic query w).1 = Ok (d :: rest) →
  bm25_search bm25 query = Ok kw →
  ∃ docs,
    (_get_relevant_documents semantic bm25 k query w).1 = Ok (d :: docs).
Proof.
  intros Hk Hs Hb.
  rewrite (hybrid_delivers _ _ _ _ _ _ _ Hs Hb).
  rewrite merge_untruncated by lia.
  unfold after_bm25. cbv zeta.
  destruct (add_all_grows
              (Py.take (k - Z.of_nat (length (result (after_semantic k (d :: rest))))) kw)
              (after_semantic k (d :: rest))) as (e2 & -> & _).
  unfold after_semantic.
  assert (Hhalf : 1 ≤ k `div` 2) by (apply Z.div_le_lower_bound; lia).
  rewrite py_take_nonneg by lia.
  destruct (Z.to_nat (k `div` 2)) as [| m] eqn:Hm; [lia |].
  simpl. unfold add_all. simpl.
  assert (Hadd : _add acc0 d = mkAcc {[dedup_key d]} [d]).
  { unfold _add. rewrite decide_False by apply not_elem_of_empty. simpl.
    by rewrite union_empty_r_L. }
  rewrite Hadd.
  destruct (add_all_grows (take m rest) (mkAcc {[dedup_key d]} [d])) as (e1 & He1 & _).
  unfold add_all in He1. rewrite He1. simpl. eauto.
Qed.

End HybridMoreClaims.

(** ** Substrings *)

Lemma app_String (a : ascii) (s t : string) : String a s +:+ t = String a (s +:+ t).
Proof. reflexivity. Qed.

Lemma app_empty_l (t : string) : "" +:+ t = t.
Proof. reflexivity. Qed.

Lemma app_empty_r (s : string) : s +:+ "" = s.
Proof. induction s as [| a s IH]; [done |]. by rewrite app_String, IH. Qed.

Lemma app_assoc_str (s t u : string) : (s +:+ t) +:+ u = s +:+ t +:+ u.
Proof. induction s as [| a s IH]; [done |]. by rewrite !app_String, IH. Qed.

Lemma startswith_spec (p s : string) :
  Py.startswith p s = true ↔ ∃ v, s = p +:+ v.
Proof.
  revert s. induction p as [| a p IH]; intros s; simpl.
  - split; [eauto | done].
  - destruct s as [| b s].
    + split; [done | intros [v Hv]; by rewrite app_String in Hv].
    + rewrite andb_true_iff, bool_decide_eq_true, IH. split.
      * intros [-> [v ->]]. by exists v.
      * intros [v Hv]. rewrite app_String in Hv. injection Hv as -> ->. eauto.
Qed.

Lemma contains_spec (p s : string) :
  Py.contains p s = true ↔ ∃ u v, s = u +:+ p +:+ v.
Proof.
  induction s as [| b s IH].
  - simpl. rewrite orb_false_r, startswith_spec. split.
    + intros [v ->]. by exists "", v.
    + intros (u & v & Huv). destruct u as [| a u]; [| by rewrite app_String in Huv].
      by exists v.
  - cbn [Py.contains]. rewrite orb_true_iff, startswith_spec, IH. split.
    + intros [[v ->] | (u & v & ->)].
      * by exists "", v.
      * by exists (String b u), v.
    + intros (u & v & Huv). destruct u as [| a u].
      * left. by exists v.
      * right. rewrite app_String in Huv. injection Huv as -> ->. by exists u, v.
Qed.

(** A text that contains [a +:+ p +:+ b] contains [p]. *)
Lemma contains_inner (a p b s : string) :
  Py.contains (a +:+ p +:+ b) s = true → Py.contains p s = true.
Proof.
  rewrite !contains_spec. intros (u & v & ->).
  exists (u +:+ a), (b +:+ v). by rewrite !app_assoc_str.
Qed.

(** ** The retrieval service, continued *)

(** X6. The client-side filter of the fallback keeps a chunk exactly when
    the filter string occurs somewhere in its [source] path, or its
    [filename] is the filter string: a chunk of [dir/name] is kept for the
    filter [name], and so is a chunk of any file whose path merely contains
    it. *)
Theorem source_filter_is_substring_match (filter_source : string) (d : Document) :
  (source_matches filter_source d = true
   ↔ (∃ u v, meta_get d "source" = u +:+ filter_source +:+ v)
     ∨ meta_get d "filename" = filter_source)
  ∧ (∀ dir, meta_get d "source" = PyPath.joinpath dir filter_source →
            source_matches filter_source d = true).
Proof.
  assert (Hiff : source_matches filter_source d = true
                 ↔ (∃ u v, meta_get d "source" = u +:+ filter_source +:+ v)
                   ∨ meta_get d "filename" = filter_source).
  { by rewrite source_matches_spec, contains_spec. }
  split; [exact Hiff |].
  intros dir Hsrc. apply Hiff. left. exists (dir +:+ "/"), "".
  rewrite Hsrc. unfold PyPath.joinpath. by rewrite app_empty_r, app_assoc_str.
Qed.

(** X7. A question is answered with the listing only if, once lowered and
    stripped, it mentions [base] or [na pasta], and also one of [pdf],
    [arquivo], [documento], [quais], [lista], [o que]; any other question
    goes to retrieval. *)
Theorem corpus_question_needs_its_vocabulary (question : string) :
  _is_question_about_pdfs_in_base question = true →
  let q := Py.strip (Py.lower question) in
  (Py.contains "base" q = true ∨ Py.contains "na pasta" q = true)
  ∧ (Py.contains "pdf" q = true ∨ Py.contains "arquivo" q = true
     ∨ Py.contains "documento" q = true ∨ Py.contains "quais" q = true
     ∨ Py.contains "lista" q = true ∨ Py.contains "o que" q = true).
Proof.
  unfold _is_question_about_pdfs_in_base, any_in, _TERMOS_BASE, _TERMOS_ARQUIVO.
  cbn [existsb]. cbv zeta. intros H.
  set (q := Py.strip (Py.lower question)) in *.
  rewrite !andb_true_iff, !orb_true_iff, !andb_true_iff, !orb_true_iff in H.
  destruct H as [Hbase Hfile]. split.
  - destruct_or! Hbase; try discriminate;
      first
        [ by left | by right
        | left; by apply (contains_inner "na " "base" "")
        | left; by apply (contains_inner "" "base" " de")
        | right; by apply (contains_inner "" "na pasta" " base")
        | left; by destruct Hbase ].
  - destruct_or! Hfile; try discriminate;
      first
        [ by eauto 7
        | left; by apply (contains_inner "" "pdf" "s")
        | right; left; by apply (contains_inner "" "arquivo" "s")
        | right; right; left; by apply (contains_inner "" "documento" "s") ].
Qed.

Lemma last_n_idempotent {A} (n : nat) (l : list A) :
  Py.last_n n (Py.last_n n l) = Py.last_n n l.
Proof.
  unfold Py.last_n. rewrite length_drop.
  replace (length l - (length l - n) - n)%nat with 0%nat by lia. done.
Qed.

Lemma last_n_nonempty {A} (n : nat) (l : list A) :
  l ≠ [] → (0 < n)%nat → Py.last_n n l ≠ [].
Proof.
  intros Hl Hn Hnil. apply (f_equal length) in Hnil.
  unfold Py.last_n in Hnil. rewrite length_drop in Hnil. simpl in Hnil.
  destruct l; [done |]. simpl in Hnil. lia.
Qed.

(** The history text is built from the last five turns only. *)
Lemma build_history_last_five (h : list (string * string)) :
  build_history (Some (Py.last_n 5 h)) = build_history (Some h).
Proof.
  destruct h as [| t h]; [done |].
  pose proof (last_n_nonempty 5 (t :: h) ltac:(done) ltac:(lia)) as Hne.
  pose proof (last_n_idempotent 5 (t :: h)) as Hidem.
  destruct (Py.last_n 5 (t :: h)) as [| t' h'] eqn:Hlast; [done |].
  unfold build_history. by rewrite Hidem, Hlast.
Qed.

Section RetrievalServiceMore.

Variable resolve : string → string.
Variables (question : string) (retriever : BaseRetriever).
Variables (llm : AzureChatOpenAI) (pdf_dir : string).

(** The answer depends on the history through its text only. *)
Lemma answer_question_history_text
    (h1 h2 : option (list (string * string)))
    (filter_source : option string) (vectorstore : option Chroma) (w : World) :
  build_history h1 = build_history h2 →
  answer_question resolve question retriever llm pdf_dir h1
                  filter_source vectorstore w
  = answer_question resolve question retriever llm pdf_dir h2
                    filter_source vectorstore w.
Proof.
  intros Hh. unfold answer_question.
  destruct (_is_question_about_pdfs_in_base question); [done |].
  unfold bind.
  match goal with |- context [match ?m w with _ => _ end] => destruct (m w) as [[docs | e] w'] end;
    [| done].
  unfold answer_from_docs. by rewrite Hh.
Qed.

(** X8. Only the last five turns of the history count: the answer, the
    sources and the calls made are the same with the whole history and with
    its last five turns; an empty history is the same as none. *)
Theorem only_last_five_turns_count
    (history : list (string * string))
    (filter_source : option string) (vectorstore : option Chroma) (w : World) :
  answer_question resolve question retriever llm pdf_dir (Some history)
                  filter_source vectorstore w
  = answer_question resolve question retriever llm pdf_dir
                    (Some (Py.last_n 5 history)) filter_source vectorstore w
  ∧ answer_question resolve question retriever llm pdf_dir (Some [])
                    filter_source vectorstore w
    = answer_question resolve question retriever llm pdf_dir None
                      filter_source vectorstore w.
Proof.
  split; apply answer_question_history_text.
  - symmetry. apply build_history_last_five.
  - reflexivity.
Qed.

Variable history : option (list (string * string)).

(** X9. When the search with the exact filter on [filename] delivers
    chunks, they are the chunks used, all of them and in that order: the
    store is searched once, there is no second search and no client-side
    filtering. *)
Theorem exact_filter_hit_is_used
    (filter_source : string) (vs : Chroma) (w : World)
    (docs : list Document) :
  _is_question_about_pdfs_in_base question = false →
  filter_source ≠ "" →
  chroma_bool vs = true →
  chroma_search vs question RETRIEVER_K (Some ("filename", filter_source)) = Ok docs →
  docs ≠ [] →
  answer_question resolve question retriever llm pdf_dir history
                  (Some filter_source) (Some vs) w
  = answer_from_docs question llm history docs
      (logged w [CallSimilaritySearch question RETRIEVER_K
                   (Some ("filename", filter_source))]).
Proof.
  intros Hmeta Hfs Hvs Hsearch Hne.
  unfold answer_question. rewrite Hmeta, Hvs.
  unfold Py.str_bool. rewrite bool_decide_eq_false_2 by done. simpl.
  unfold bind at 1.
  assert (Hfilt : filtered_search vs question filter_source w
                  = (Ok docs, logged w [CallSimilaritySearch question RETRIEVER_K
                                          (Some ("filename", filter_source))])).
  { unfold filtered_search, bind, try_except, similarity_search, bind, emit,
      lift, ret. rewrite Hsearch. by destruct docs. }
  by rewrite Hfilt.
Qed.

(** X10. Without a filter, a retriever that raises makes the answer raise
    the same error, and a retriever that delivers no chunk gives the fixed
    message with no source; in both cases the language model is not called
    (the world is the one the retriever left). *)
Theorem no_chunk_no_model_call (vectorstore : option Chroma) (w w1 : World) :
  _is_question_about_pdfs_in_base question = false →
  (∀ e, invoke retriever question w = (Raise e, w1) →
        answer_question resolve question retriever llm pdf_dir history
                        None vectorstore w
        = (Raise e, w1))
  ∧ (invoke retriever question w = (Ok [], w1) →
     answer_question resolve question retriever llm pdf_dir history
                     None vectorstore w
     = (Ok (NOTHING_FOUND, []), w1)).
Proof.
  intros Hmeta. split.
  - intros e Hinv. unfold answer_question. rewrite Hmeta.
    unfold bind at 1. by rewrite Hinv.
  - intros Hinv. unfold answer_question. rewrite Hmeta.
    unfold bind at 1. by rewrite Hinv.
Qed.

(** X11. Without a filter, when the retriever delivers at least one chunk
    the model is called exactly once, with the question, the context built
    from those chunks and the history text; if it replies, the answer is its
    reply and the sources are the retrieved chunks, all of them and in that
    order; if it raises, the answer raises the same error. *)
Theorem answer_cites_retrieved_chunks
    (vectorstore : option Chroma) (w w1 : World) (docs : list Document) :
  _is_question_about_pdfs_in_base question = false →
  invoke retriever question w = (Ok docs, w1) →
  docs ≠ [] →
  let w2 := logged w1 [CallLLM question (build_context docs) (build_history history)] in
  (∀ content,
     llm_reply llm question (build_context docs) (build_history history) = Ok content →
     answer_question resolve question retriever llm pdf_dir history
                     None vectorstore w
     = (Ok (content, docs), w2))
  ∧ (∀ e,
       llm_reply llm question (build_context docs) (build_history history) = Raise e →
       answer_question resolve question retriever llm pdf_dir history
                       None vectorstore w
       = (Raise e, w2)).
Proof.
  intros Hmeta Hinv Hne w2.
  assert (Hans : answer_question resolve question retriever llm pdf_dir history
                                 None vectorstore w
                 = answer_from_docs question llm history docs w1).
  { unfold answer_question. rewrite Hmeta. unfold bind at 1. by rewrite Hinv. }
  rewrite Hans, answer_from_docs_nonempty by done.
  split; intros ? ->; reflexivity.
Qed.

(** X12. Only the search with the exact filter is guarded: when it raises
    or delivers nothing and the unfiltered search of the fallback raises,
    that error is raised by the answer, after two searches and no call of
    the model. *)
Theorem fallback_search_failure_is_raised
    (filter_source : string) (vs : Chroma) (w : World) (e : exn) :
  _is_question_about_pdfs_in_base question = false →
  filter_source ≠ "" →
  chroma_bool vs = true →
  (chroma_search vs question RETRIEVER_K (Some ("filename", filter_source)) = Ok []
   ∨ ∃ e1, chroma_search vs question RETRIEVER_K (Some ("filename", filter_source))
           = Raise e1) →
  chroma_search vs question (RETRIEVER_K * 2) None = Raise e →
  answer_question resolve question retriever llm pdf_dir history
                  (Some filter_source) (Some vs) w
  = (Raise e,
     logged w [CallSimilaritySearch question RETRIEVER_K
                 (Some ("filename", filter_source));
               CallSimilaritySearch question (RETRIEVER_K * 2) None]).
Proof.
  intros Hmeta Hfs Hvs Hfirst Hsecond.
  unfold answer_question. rewrite Hmeta, Hvs.
  unfold Py.str_bool. rewrite bool_decide_eq_false_2 by done. simpl.
  unfold bind at 1.
  unfold filtered_search, bind, try_except, similarity_search, bind, emit,
    lift, ret.
  destruct Hfirst as [-> | [e1 ->]]; cbn [Py.list_bool negb];
    rewrite Hsecond; unfold logged; cbn [env fs calls];
    by rewrite <-app_assoc.
Qed.

End RetrievalServiceMore.

(** ** The index store, continued *)

Section IndexStoreMore.

Variable resolve : string → string.
Variable PyMuPDFLoader_load : string → outcome (list Document).
Variable PyPDFLoader_load : string → outcome (list Document).
Variable split_documents : list Document → list Document.
Variable chroma_handle : list Document → Chroma.
Variables (pdf_dir persist_dir : string).
Variable embeddings : AzureOpenAIEmbeddings.

Local Abbreviation build_with emb :=
  (_build_vectorstore resolve PyMuPDFLoader_load PyPDFLoader_load
                      split_documents chroma_handle
                      pdf_dir persist_dir emb).

(** The chunks a rebuild produces from the PDF files of a directory. *)
Local Abbreviation chunks_of pdfs :=
  (split_documents
     (set_filename <$>
        mjoin (_load_pdf PyMuPDFLoader_load PyPDFLoader_load <$>
                 PyPath.sorted_glob_pdf (resolve pdf_dir) pdfs))).

(** X13. Without a reindex request a non-empty persist directory is
    reused: nothing is embedded, the environment and the files the directory
    holds are left as they are, and the handle is on the chunks the
    directory holds vectors for. When the directory holds a database the
    world is unchanged; when it holds none (only [chunks.pkl], say), opening
    it creates a database without vectors there, and that is the only
    write. The chunk list comes back when [chunks.pkl] holds one; when the
    file is missing or does not unpickle, no chunk list is returned, and the
    retriever made from that result is the semantic one. *)
Theorem reuse_opens_directory_and_degrades
    (from_documents : list Document → Z → outcome BM25Retriever)
    (set_attribute : outcome unit)
    (w : World) (entries : gmap string FileData) :
  reindex_requested (default "" (env w !! "REINDEX")) = false →
  fs w !! persist_dir = Some entries →
  entries ≠ ∅ →
  ∃ chunks,
    build_with embeddings w
    = (Ok (chroma_handle (indexed_chunks entries), chunks),
       match entries !! chroma_db_name with
       | Some _ => w
       | None =>
           mkWorld (env w)
                   (<[persist_dir := <[chroma_db_name := VectorDB []]> entries]>
                      (fs w))
                   (calls w)
       end)
    ∧ (∀ l, entries !! chunks_name = Some (PickledChunks l) → chunks = Some l)
    ∧ ((entries !! chunks_name = None
        ∨ (∃ d, entries !! chunks_name = Some d ∧ ∀ l, d ≠ PickledChunks l)) →
       chunks = None
       ∧ _create_retriever from_documents set_attribute
           (chroma_handle (indexed_chunks entries)) chunks true
         = as_retriever (chroma_handle (indexed_chunks entries)) RETRIEVER_K).
Proof.
  intros Hforce Hp Hne. eexists. split.
  - by apply nonempty_directory_is_reused.
  - split.
    + intros l ->. reflexivity.
    + intros [-> | (d & -> & Hd)]; [done |].
      destruct d; [by destruct (Hd chunks) | done | done].
Qed.

(** The rebuild proper, started on an empty persist directory, when the
    embedding succeeds. *)
Lemma rebuild_from_empty (w : World) (pdfs : gmap string FileData) :
  persist_dir ≠ resolve pdf_dir →
  fs w !! resolve pdf_dir = Some pdfs →
  PyPath.sorted_glob_pdf (resolve pdf_dir) pdfs ≠ [] →
  embed_documents embeddings (page_content <$> chunks_of pdfs) = Ok () →
  rebuild resolve PyMuPDFLoader_load PyPDFLoader_load split_documents
          chroma_handle pdf_dir persist_dir embeddings
          (mkWorld (env w) (<[persist_dir := ∅]> (fs w)) (calls w))
  = (Ok (chroma_handle (chunks_of pdfs), Some (chunks_of pdfs)),
     mkWorld (env w)
       (<[persist_dir := {[ chunks_name := PickledChunks (chunks_of pdfs);
                            chroma_db_name := VectorDB (chunks_of pdfs) ]}]> (fs w))
       (calls w ++ [CallEmbed (page_content <$> chunks_of pdfs)])).
Proof.
  intros Hne Hpdfs Hfiles Hembed.
  cbv beta iota zeta delta [rebuild bind read_dir raise write_file get_world
    set_fs ret Chroma_from_documents emit lift logged].
  cbn [env fs calls]. rewrite lookup_insert_ne, Hpdfs by done.
  assert (Hbool : negb (Py.list_bool (PyPath.sorted_glob_pdf (resolve pdf_dir) pdfs))
                  = false).
  { by destruct (PyPath.sorted_glob_pdf (resolve pdf_dir) pdfs). }
  rewrite Hbool. cbn [env fs calls].
  rewrite Chroma_client_spec. cbn [env fs calls].
  rewrite !lookup_insert_eq. simpl.
  assert (Hnone : (<[chunks_name := PickledChunks (chunks_of pdfs)]> ∅
                     : gmap string FileData) !! chroma_db_name = None).
  { by rewrite lookup_insert_ne, lookup_empty. }
  rewrite Hnone, Hembed. cbn [env fs calls].
  rewrite !lookup_insert_eq. simpl.
  unfold indexed_chunks. rewrite lookup_insert_eq. simpl.
  rewrite !insert_insert_eq.
  reflexivity.
Qed.

(** X14. A first build, on an absent or empty persist directory and
    without reindex request, that succeeds leaves in the persist directory
    exactly the chunk list and the vectors of that build; it embeds the
    chunks once and returns the handle on them with the chunk list. *)
Theorem fresh_build_writes_the_pair (w : World) (pdfs : gmap string FileData) :
  persist_dir ≠ resolve pdf_dir →
  reindex_requested (default "" (env w !! "REINDEX")) = false →
  default ∅ (fs w !! persist_dir) = ∅ →
  fs w !! resolve pdf_dir = Some pdfs →
  PyPath.sorted_glob_pdf (resolve pdf_dir) pdfs ≠ [] →
  embed_documents embeddings (page_content <$> chunks_of pdfs) = Ok () →
  build_with embeddings w
  = (Ok (chroma_handle (chunks_of pdfs), Some (chunks_of pdfs)),
     mkWorld (env w)
       (<[persist_dir := {[ chunks_name := PickledChunks (chunks_of pdfs);
                            chroma_db_name := VectorDB (chunks_of pdfs) ]}]> (fs w))
       (calls w ++ [CallEmbed (page_content <$> chunks_of pdfs)])).
Proof.
  intros Hne Hforce Hempty Hpdfs Hfiles Hembed.
  rewrite build_on_rebuild_path by (by right).
  by apply rebuild_from_empty.
Qed.

(** X15. Build, then open again: after a first build on an absent or empty
    persist directory, a second call without reindex request returns the
    same handle and the same chunk list, and does so without embedding
    anything or touching a file. *)
Theorem build_then_reopen
    (embeddings' : AzureOpenAIEmbeddings)
    (w : World) (pdfs : gmap string FileData) :
  persist_dir ≠ resolve pdf_dir →
  reindex_requested (default "" (env w !! "REINDEX")) = false →
  default ∅ (fs w !! persist_dir) = ∅ →
  fs w !! resolve pdf_dir = Some pdfs →
  PyPath.sorted_glob_pdf (resolve pdf_dir) pdfs ≠ [] →
  embed_documents embeddings (page_content <$> chunks_of pdfs) = Ok () →
  ∃ r w1,
    build_with embeddings w = (Ok r, w1)
    ∧ r = (chroma_handle (chunks_of pdfs), Some (chunks_of pdfs))
    ∧ build_with embeddings' w1 = (Ok r, w1).
Proof.
  intros Hne Hforce Hempty Hpdfs Hfiles Hembed.
  eexists _, _. split.
  { rewrite build_on_rebuild_path by (by right).
    by apply rebuild_from_empty. }
  split; [reflexivity |].
  rewrite (nonempty_directory_is_reused resolve PyMuPDFLoader_load
             PyPDFLoader_load split_documents chroma_handle pdf_dir persist_dir
             embeddings' _
             {[ chunks_name := PickledChunks (chunks_of pdfs);
                chroma_db_name := VectorDB (chunks_of pdfs) ]}).
  - unfold indexed_chunks. rewrite lookup_insert_ne by done.
    rewrite lookup_singleton_eq, lookup_insert_eq. reflexivity.
  - exact Hforce.
  - simpl. apply lookup_insert_eq.
  - intros Hnil. apply (f_equal (λ m, m !! chunks_name)) in Hnil.
    by rewrite lookup_insert_eq, lookup_empty in Hnil.
Qed.

(** X16. When a reindex is requested, what the persist directory held
    before has no influence: the build gives the same result and leaves the
    same world as on a world whose persist directory holds anything else. *)
Theorem forced_rebuild_ignores_old_index
    (w : World) (entries' : gmap string FileData) :
  reindex_requested (default "" (env w !! "REINDEX")) = true →
  build_with embeddings (mkWorld (env w) (<[persist_dir := entries']> (fs w)) (calls w))
  = build_with embeddings w.
Proof.
  intros Hforce.
  rewrite !build_on_rebuild_path by (left; exact Hforce).
  simpl. by rewrite insert_insert_eq.
Qed.

End IndexStoreMore.

(** X17. [doc.metadata["filename"]] is derived from [source]: a document
    with a non-empty [source] gets the last component of that path as
    [filename]; its text, its [source] and its deduplication identity are
    unchanged; a document without [source] is left as it is; doing it twice
    changes nothing more. *)
Theorem filename_is_derived_from_source (doc : Document) :
  page_content (set_filename doc) = page_content doc
  ∧ meta_get (set_filename doc) "source" = meta_get doc "source"
  ∧ dedup_key (set_filename doc) = dedup_key doc
  ∧ (meta_get doc "source" ≠ "" →
     meta_get (set_filename doc) "filename" = PyPath.name (meta_get doc "source"))
  ∧ (meta_get doc "source" = "" → set_filename doc = doc)
  ∧ set_filename (set_filename doc) = set_filename doc.
Proof.
  assert (Hsrc : meta_get (set_filename doc) "source" = meta_get doc "source").
  { unfold set_filename. destruct (Py.str_bool (meta_get doc "source")); [| done].
    unfold meta_get. simpl. by rewrite lookup_insert_ne. }
  assert (Hpc : page_content (set_filename doc) = page_content doc).
  { unfold set_filename. by destruct (Py.str_bool (meta_get doc "source")). }
  split_and!; try done.
  - unfold dedup_key. by rewrite Hsrc, Hpc.
  - intros Hne. unfold set_filename, Py.str_bool.
    rewrite bool_decide_eq_false_2 by done. simpl.
    unfold meta_get at 1. simpl. by rewrite lookup_insert_eq.
  - intros Hnil. unfold set_filename, Py.str_bool.
    by rewrite bool_decide_eq_true_2.
  - unfold set_filename at 1. rewrite Hsrc.
    destruct (Py.str_bool (meta_get doc "source")) eqn:Hb; [| done].
    unfold set_filename. rewrite Hb. simpl. by rewrite insert_insert_eq.
Qed.

(** ** Follow-up suggestions *)

(** X18. The suggestions are at most six, none of them is empty, and each
    is a line of the reply of the model, stripped, in the order of the
    reply; when the model raises there is no suggestion (and no error). *)
Theorem suggestions_are_few_and_not_blank
    (suggestion_chain : string → string → outcome string)
    (question answer : string) :
  let suggestions := suggest_follow_up_questions suggestion_chain question answer in
  (length suggestions ≤ 6)%nat
  ∧ Forall (λ s, s ≠ "") suggestions
  ∧ (∀ content,
       suggestion_chain question answer = Ok content →
       suggestions `sublist_of`
         (Py.strip <$> Py.split newline (Py.strip content)))
  ∧ (∀ e, suggestion_chain question answer = Raise e → suggestions = []).
Proof.
  unfold suggest_follow_up_questions.
  destruct (suggestion_chain question answer) as [content | e]; cbv zeta.
  - set (kept := filter (λ s, Py.str_bool (Py.strip s) = true)
                        (Py.split newline (Py.strip content))).
    assert (Hres : (if Py.list_bool (Py.strip <$> kept)
                    then Py.take 6 (Py.strip <$> kept) else [])
                   = take 6 (Py.strip <$> kept)).
    { destruct (Py.strip <$> kept); [done |]. simpl.
      by rewrite py_take_nonneg by lia. }
    rewrite Hres. split_and!.
    + rewrite length_take. lia.
    + apply Forall_take, Forall_fmap, Forall_forall. intros s Hs.
      apply list_elem_of_filter in Hs as [Hs _]. simpl.
      unfold Py.str_bool in Hs. apply negb_true_iff, bool_decide_eq_false in Hs.
      exact Hs.
    + intros ? [= <-]. etrans; [apply sublist_take |].
      apply fmap_sublist, sublist_filter.
    + intros ? [=].
  - split_and!; [simpl; lia | constructor | intros ? [=] | done].
Qed.

(** ** Initialisation *)

Section InitRagClaims.

Variable resolve : string → string.
Variable PyMuPDFLoader_load : string → outcome (list Document).
Variable PyPDFLoader_load : string → outcome (list Document).
Variable split_documents : list Document → list Document.
Variable chroma_handle : list Document → Chroma.
Variable from_documents : list Document → Z → outcome BM25Retriever.
Variable set_attribute : outcome unit.
Variable prepare_environment : string → M SslVerify.
Variable make_clients :
  SslVerify → Settings → AzureChatOpenAI * AzureOpenAIEmbeddings.

Local Abbreviation init :=
  (init_rag resolve PyMuPDFLoader_load PyPDFLoader_load split_documents
            chroma_handle from_documents set_attribute prepare_environment
            make_clients).
Local Abbreviation rebuild_all :=
  (rebuild_rag resolve PyMuPDFLoader_load PyPDFLoader_load split_documents
               chroma_handle from_documents set_attribute
               prepare_environment make_clients).

(** A setting is missing when it is unset or empty. *)
Lemma get_env_missing name w :
  negb (Py.str_bool (default "" (env w !! name))) = true →
  _get_env name w
  = (Raise (ValueError ("Variavel de ambiente ausente: " +:+ name)), w).
Proof.
  intros Hv. unfold _get_env, bind, get_world, ret, raise.
  destruct (env w !! name) as [value |]; [| done].
  simpl in Hv. apply negb_true_iff in Hv. by rewrite Hv.
Qed.

Lemma get_env_present name w :
  negb (Py.str_bool (default "" (env w !! name))) = false →
  _get_env name w = (Ok (default "" (env w !! name)), w).
Proof.
  intros Hv. unfold _get_env, bind, get_world, ret, raise.
  destruct (env w !! name) as [value |]; [| done].
  simpl in *. apply negb_false_iff in Hv. by rewrite Hv.
Qed.

(** X19. When, after the environment is prepared, one of the five
    settings is unset or empty, [init_rag] raises a [ValueError] that names
    the first such setting in the order they are read, and stops there:
    nothing is indexed and no collaborator is called (the world is the one
    the preparation left). *)
Theorem init_rag_names_first_missing_setting
    (base_dir : string) (w w1 : World) (ssl_verify : SslVerify) (name : string) :
  prepare_environment base_dir w = (Ok ssl_verify, w1) →
  List.find (λ n, negb (Py.str_bool (default "" (env w1 !! n)))) required_settings
    = Some name →
  init base_dir w
  = (Raise (ValueError ("Variavel de ambiente ausente: " +:+ name)), w1).
Proof.
  intros Hprep Hfind. unfold init_rag. unfold bind at 1. rewrite Hprep.
  unfold bind at 1. unfold read_settings.
  unfold required_settings in Hfind. cbn [List.find] in Hfind.
  repeat
    (lazymatch type of Hfind with
     | (if negb (Py.str_bool (default "" (env w1 !! ?n))) then _ else _) = _ =>
         destruct (negb (Py.str_bool (default "" (env w1 !! n)))) eqn:Hb;
         [ injection Hfind as <-; unfold bind at 1;
           rewrite (get_env_missing _ w1 Hb); reflexivity
         | unfold bind at 1; rewrite (get_env_present _ w1 Hb); clear Hb ]
     end).
  discriminate Hfind.
Qed.

(** X20. [rebuild_rag] runs [init_rag] with [REINDEX] set to [true], which
    the index store reads as a reindex request, and gives its outcome, also
    when it raises; afterwards [REINDEX] is unset, whatever it was before the
    call and whatever [init_rag] did. *)
Theorem rebuild_rag_unsets_reindex (base_dir : string) (w : World) :
  let w0 := mkWorld (<["REINDEX" := "true"]> (env w)) (fs w) (calls w) in
  let r := init base_dir w0 in
  reindex_requested (default "" (env w0 !! "REINDEX")) = true
  ∧ rebuild_all base_dir w
    = (r.1, mkWorld (delete "REINDEX" (env r.2)) (fs r.2) (calls r.2))
  ∧ env (rebuild_all base_dir w).2 !! "REINDEX" = None.
Proof.
  intros w0 r.
  assert (Heq : rebuild_all base_dir w
                = (r.1, mkWorld (delete "REINDEX" (env r.2)) (fs r.2) (calls r.2))).
  { unfold rebuild_rag, bind, environ_set, try_finally, environ_pop, bind,
      get_world, set_env. simpl. fold w0. fold r. by destruct r as [o w1]. }
  split_and!.
  - simpl. by rewrite lookup_insert_eq.
  - exact Heq.
  - rewrite Heq. simpl. apply lookup_delete_eq.
Qed.

End InitRagClaims.

(** ** The command-line loop *)

Lemma last_last_n {A} (n : nat) (l : list A) (x : A) :
  (0 < n)%nat → last (Py.last_n n (l ++ [x])) = Some x.
Proof.
  intros Hn. unfold Py.last_n. rewrite last_lookup, length_drop, length_app.
  simpl. rewrite lookup_drop.
  replace (length l + 1 - n + pred (length l + 1 - (length l + 1 - n)))%nat
    with (length l) by lia.
  by rewrite lookup_app_r, Nat.sub_diag by lia.
Qed.

Section CliClaims.
Import Cli.

Variable resolve : string → string.
Variable rag : RagComponents.
Variable pdf_names : gset string.

Local Abbreviation turn_ := (turn_on resolve rag pdf_names).
Local Abbreviation loop_ := (loop resolve rag pdf_names).
Local Abbreviation answer_ question s :=
  (answer_question resolve question (rag_retriever rag) (rag_llm rag)
                   (rag_pdf_dir rag) (Some (history s)) (filter_source s)
                   (Some (rag_vectorstore rag))).

Local Abbreviation kept_ := (kept pdf_names).

Lemma turn_keeps filter0 line s w s' w' :
  kept_ filter0 s →
  turn_ line s w = (Ok (Continue s'), w') →
  kept_ filter0 s'.
Proof.
  intros [Hlen Hfilter]. unfold turn_on.
  destruct (negb (Py.str_bool (Py.strip line))); [by intros [=] |].
  destruct (Py.startswith "/filter " (Py.strip line)).
  { repeat case_bool_decide; intros [= <- <-]; (split; simpl; [done |]);
      eauto 8. }
  repeat case_bool_decide; try (intros [= <- <-]; split; simpl; eauto; lia).
  unfold bind.
  destruct (answer_question _ _ _ _ _ _ _ _ w) as [[answered | e] w1];
    [| by intros [=]].
  intros [= <- <-]. split; simpl; [| done].
  case_decide; [| lia].
  unfold Py.last_n. rewrite length_drop. lia.
Qed.

Lemma loop_keeps filter0 lines s w s' w' :
  kept_ filter0 s →
  loop_ lines s w = (Ok s', w') →
  kept_ filter0 s'.
Proof.
  revert s w. induction lines as [| line lines IH]; intros s w Hs; [by intros [=] |].
  simpl. unfold bind at 1.
  destruct (turn_ line s w) as [[[| s1] | e] w1] eqn:Hturn.
  - by intros [= <- <-].
  - intros Hloop. eapply IH; [| exact Hloop].
    eapply turn_keeps; [exact Hs | exact Hturn].
  - by intros [=].
Qed.

(** X21. The history never grows beyond five turns: a session that starts
    with at most five turns (it starts with none) and ends normally ends with
    at most five, whatever is typed. *)
Theorem cli_history_is_bounded (lines : list string) (s s' : state) (w w' : World) :
  (length (history s) ≤ 5)%nat →
  loop_ lines s w = (Ok s', w') →
  (length (history s') ≤ 5)%nat.
Proof.
  intros Hlen Hloop.
  by destruct (loop_keeps (filter_source s) lines s w s' w'
                 ltac:(split; [exact Hlen | by left]) Hloop).
Qed.

(** X22. The filter at the end of a session is the one the session started
    with, or none, or the name of a PDF file of the corpus: [/filter] never
    sets a name that is not in [pdf_names]. The filter given on the command
    line is not checked in this way. *)
Theorem cli_filter_is_a_known_file (lines : list string) (s s' : state) (w w' : World) :
  loop_ lines s w = (Ok s', w') →
  (length (history s) ≤ 5)%nat →
  filter_source s' = filter_source s
  ∨ filter_source s' = None
  ∨ ∃ name, name ∈ pdf_names ∧ filter_source s' = Some name.
Proof.
  intros Hloop Hlen.
  by destruct (loop_keeps (filter_source s) lines s w s' w'
                 ltac:(split; [exact Hlen | by left]) Hloop).
Qed.

(** X23. The empty line and the commands are handled by the loop itself:
    they call neither the retriever nor the store nor the model (the world
    is unchanged) and never raise. The empty line ends the loop; [/limpar]
    empties the history and keeps the filter; [/historico] changes nothing;
    [/filter] with a name that is not [off] and not a PDF of the corpus
    changes nothing. *)
Theorem cli_commands_are_local (line : string) (s : state) (w : World) :
  let question := Py.strip line in
  (question = "" → turn_ line s w = (Ok Break, w))
  ∧ (question = "/limpar" →
     turn_ line s w = (Ok (Continue (mkState [] (filter_source s))), w))
  ∧ (question = "/historico" → turn_ line s w = (Ok (Continue s), w))
  ∧ (Py.startswith "/filter " question = true →
     (∃ s', turn_ line s w = (Ok (Continue s'), w) ∧ history s' = history s)
     ∧ (let val := Py.strip (str_drop 8 question) in
        Py.lower val ≠ "off" → val ∉ pdf_names →
        turn_ line s w = (Ok (Continue s), w))).
Proof.
  intros question. unfold turn_on. fold question. split_and!.
  - by intros ->.
  - by intros ->.
  - by intros ->.
  - intros Hcmd. rewrite Hcmd.
    assert (Hne : negb (Py.str_bool question) = false).
    { destruct question; [done |]. done. }
    rewrite Hne. split.
    + repeat case_bool_decide; eauto.
    + cbv zeta. intros Hoff Hname.
      by rewrite !bool_decide_eq_false_2.
Qed.

(** X24. A line that is no command is a question: it is answered with the
    history and the filter of the moment; when the answer comes, the turn is
    added at the end of the history and the filter is kept; when the answer
    raises, the loop raises. *)
Theorem cli_question_is_recorded (line : string) (s : state) (w w' : World) :
  let question := Py.strip line in
  question ≠ "" →
  Py.startswith "/filter " question = false →
  question ≠ "/historico" →
  question ≠ "/limpar" →
  (∀ answer sources,
     answer_ question s w = (Ok (answer, sources), w') →
     ∃ s', turn_ line s w = (Ok (Continue s'), w')
           ∧ last (history s') = Some (question, answer)
           ∧ filter_source s' = filter_source s)
  ∧ (∀ e, answer_ question s w = (Raise e, w') →
          turn_ line s w = (Raise e, w')).
Proof.
  intros question Hne Hfilter Hhist Hclear.
  assert (Hturn : turn_ line s w
    = (let! answered := answer_ question s in
       let history1 := history s ++ [(question, answered.1)] in
       let history2 :=
         if decide (5 < length history1)%nat then Py.last_n 5 history1
         else history1 in
       ret (Continue (mkState history2 (filter_source s)))) w).
  { unfold turn_on. fold question. rewrite Hfilter.
    unfold Py.str_bool. by rewrite !bool_decide_eq_false_2. }
  rewrite Hturn. unfold bind. split.
  - intros answer sources ->. eexists. split; [reflexivity |]. simpl.
    split; [| done]. case_decide.
    + apply last_last_n. lia.
    + by rewrite last_snoc.
  - by intros e ->.
Qed.

End CliClaims.


Section MainClaims.
Import Cli.

Variable resolve : string → string.
Variable PyMuPDFLoader_load : string → outcome (list Document).
Variable PyPDFLoader_load : string → outcome (list Document).
Variable split_documents : list Document → list Document.
Variable chroma_handle : list Document → Chroma.
Variable from_documents : list Document → Z → outcome BM25Retriever.
Variable set_attribute : outcome unit.
Variable prepare_environment : string → M SslVerify.
Variable make_clients :
  SslVerify → Settings → AzureChatOpenAI * AzureOpenAIEmbeddings.
Variable load_dotenv : M unit.

Local Abbreviation main_ :=
  (main resolve PyMuPDFLoader_load PyPDFLoader_load split_documents
        chroma_handle from_documents set_attribute prepare_environment
        make_clients load_dotenv).
Local Abbreviation init_ :=
  (init_rag resolve PyMuPDFLoader_load PyPDFLoader_load split_documents
            chroma_handle from_documents set_attribute prepare_environment
            make_clients).

Lemma pdf_names_are_file_names (pdf_dir : string) (w : World) (name : string) :
  name ∈ pdf_names_of resolve pdf_dir w →
  ∃ entries rel,
    fs w !! resolve pdf_dir = Some entries
    ∧ is_Some (entries !! rel)
    ∧ PyPath.endswith ".pdf" rel = true
    ∧ name = PyPath.name (PyPath.joinpath pdf_dir rel).
Proof.
  unfold pdf_names_of. destruct (fs w !! resolve pdf_dir) as [entries |]; [| set_solver].
  rewrite elem_of_list_to_set, list_elem_of_fmap. intros (path & -> & Hpath).
  unfold PyPath.sorted_glob_pdf, PyPath.sorted in Hpath.
  rewrite merge_sort_Permutation in Hpath.
  apply list_elem_of_fmap in Hpath as (rel & -> & Hrel).
  apply list_elem_of_filter in Hrel as [Hpdf Hrel].
  apply elem_of_elements, elem_of_dom in Hrel.
  exists entries, rel. split_and!; [done | done | | done].
  by destruct (PyPath.endswith ".pdf" rel).
Qed.

(** X25. A session of the command line. When the initialisation raises,
    [main] raises the same error without reading a line. When the session
    ends normally, the history holds at most five turns and the filter is the
    one given on the command line, or none, or the file name of a PDF file
    that was in the corpus directory when the session started. *)
Theorem cli_session
    (args_filter : option string) (base_dir : string) (lines : list string)
    (w w0 : World) :
  load_dotenv w = (Ok (), w0) →
  (∀ e w1, init_ base_dir w0 = (Raise e, w1) →
           main_ args_filter base_dir lines w = (Raise e, w1))
  ∧ (∀ s' w', main_ args_filter base_dir lines w = (Ok s', w') →
       (length (history s') ≤ 5)%nat
       ∧ (filter_source s' = args_filter ∨ filter_source s' = None
          ∨ ∃ rag w1 entries rel,
              init_ base_dir w0 = (Ok rag, w1)
              ∧ fs w1 !! resolve (rag_pdf_dir rag) = Some entries
              ∧ is_Some (entries !! rel)
              ∧ PyPath.endswith ".pdf" rel = true
              ∧ filter_source s'
                = Some (PyPath.name (PyPath.joinpath (rag_pdf_dir rag) rel)))).
Proof.
  intros Hload.
  assert (Hmain : main_ args_filter base_dir lines w
    = match init_ base_dir w0 with
      | (Ok rag, w1) =>
          loop resolve rag (pdf_names_of resolve (rag_pdf_dir rag) w1) lines
               (mkState [] args_filter) w1
      | (Raise e, w1) => (Raise e, w1)
      end).
  { unfold main. unfold bind at 1. rewrite Hload. unfold bind at 1.
    by destruct (init_ base_dir w0) as [[rag | e] w1]. }
  rewrite Hmain. split.
  - by intros e w1 ->.
  - intros s' w'. destruct (init_ base_dir w0) as [[rag | e] w1] eqn:Hinit;
      [| intros ?; simplify_eq].
    intros Hloop.
    destruct (loop_keeps resolve rag (pdf_names_of resolve (rag_pdf_dir rag) w1)
                args_filter lines (mkState [] args_filter) w1 s' w'
                ltac:(split; [simpl; lia | by left]) Hloop) as [Hlen Hfilter].
    split; [exact Hlen |].
    destruct Hfilter as [? | [? | (name & Hname & Heq)]]; [by left | by right; left |].
    right. right.
    apply pdf_names_are_file_names in Hname as (entries & rel & ? & ? & ? & ->).
    by exists rag, w1, entries, rel.
Qed.

End MainClaims.

(** ** The further properties on concrete data *)

Section MoreHybridExamples.
Import Hybrid Examples MoreExamples.

Lemma hybrid_output_is_ordered_selection_witness :
  ∃ docs,
    (_get_relevant_documents (fixed_semantic sem4) (fixed_bm25 kw5) 8 "q" w0).1
      = Ok docs
    ∧ docs `sublist_of` sem4 ++ kw5
    ∧ ∀ d, d ∈ docs → d ∈ sem4 ∨ d ∈ kw5.
Proof.
  apply (hybrid_output_is_ordered_selection
           (fixed_semantic sem4) (fixed_bm25 kw5) 8 "q" w0 sem4 kw5);
    reflexivity.
Defined.

Lemma hybrid_output_covers_identities_witness :
  ∃ docs,
    (_get_relevant_documents (fixed_semantic sem_pages) (fixed_bm25 kw5) 8 "q" w0).1
      = Ok docs
    ∧ ∀ d, d ∈ Py.take (8 `div` 2) sem_pages
               ++ Py.take (8 - Z.of_nat (length (result (after_semantic 8 sem_pages)))) kw5 →
           ∃ d', d' ∈ docs ∧ dedup_key d' = dedup_key d.
Proof.
  apply (hybrid_output_covers_identities
           (fixed_semantic sem_pages) (fixed_bm25 kw5) 8 "q" w0 sem_pages kw5);
    [lia | reflexivity | reflexivity].
Defined.

Lemma hybrid_without_keyword_hits_witness :
  ∃ docs,
    (_get_relevant_documents (fixed_semantic kw5) (fixed_bm25 []) 8 "q" w0).1
      = Ok docs
    ∧ Z.of_nat (length docs) ≤ 8 `div` 2
    ∧ docs `sublist_of` Py.take (8 `div` 2) kw5.
Proof.
  apply (hybrid_without_keyword_hits
           (fixed_semantic kw5) (fixed_bm25 []) 8 "q" w0 kw5);
    [lia | reflexivity | reflexivity].
Defined.

Lemma hybrid_propagates_failures_witness :
  _get_relevant_documents failing_semantic (fixed_bm25 kw5) 8 "q" w0
  = (Raise (Exception "APITimeoutError"),
     logged (logged w0 [CallSimilaritySearch "q" RETRIEVER_K None]) [CallBM25 "q"])
  ∧ _get_relevant_documents (fixed_semantic sem4) failing_index 8 "q" w0
    = (Raise (Exception "KeyError"),
       logged (logged w0 [CallSimilaritySearch "q" RETRIEVER_K None]) [CallBM25 "q"]).
Proof.
  split.
  - apply (proj1 (hybrid_propagates_failures failing_semantic (fixed_bm25 kw5)
                      8 "q" w0 sem4 (Exception "APITimeoutError")
                      (logged w0 [CallSimilaritySearch "q" RETRIEVER_K None]))).
    reflexivity.
  - apply (proj2 (hybrid_propagates_failures (fixed_semantic sem4) failing_index
                      8 "q" w0 sem4 (Exception "KeyError")
                      (logged w0 [CallSimilaritySearch "q" RETRIEVER_K None])));
      reflexivity.
Defined.

Lemma hybrid_top_semantic_hit_first_witness :
  ∃ docs,
    (_get_relevant_documents (fixed_semantic sem4) (fixed_bm25 kw5) 8 "q" w0).1
      = Ok (d_a :: docs).
Proof.
  apply (hybrid_top_semantic_hit_first
           (fixed_semantic sem4) (fixed_bm25 kw5) 8 "q" w0 kw5 d_a [d_b; d_c; d_d]);
    [lia | reflexivity | reflexivity].
Defined.

End MoreHybridExamples.

Section MoreServiceExamples.
Import Examples MoreExamples.

Lemma source_filter_is_substring_match_witness :
  source_matches "contrato.pdf" d_a = true.
Proof.
  apply (proj2 (source_filter_is_substring_match "contrato.pdf" d_a) "Base").
  vm_compute. reflexivity.
Defined.

Lemma corpus_question_needs_its_vocabulary_witness :
  let q := Py.strip (Py.lower "Quais PDFs estao na base?") in
  (Py.contains "base" q = true ∨ Py.contains "na pasta" q = true)
  ∧ (Py.contains "pdf" q = true ∨ Py.contains "arquivo" q = true
     ∨ Py.contains "documento" q = true ∨ Py.contains "quais" q = true
     ∨ Py.contains "lista" q = true ∨ Py.contains "o que" q = true).
Proof.
  apply (corpus_question_needs_its_vocabulary "Quais PDFs estao na base?").
  vm_compute. reflexivity.
Defined.

Lemma exact_filter_hit_is_used_witness :
  answer_question id question (fixed_semantic sem4) fixed_llm "Base" None
                  (Some "contrato.pdf") (Some exact_chroma) w0
  = answer_from_docs question fixed_llm None [d_a]
      (logged w0 [CallSimilaritySearch question RETRIEVER_K
                    (Some ("filename", "contrato.pdf"))]).
Proof.
  apply (exact_filter_hit_is_used id question (fixed_semantic sem4) fixed_llm
           "Base" None "contrato.pdf" exact_chroma w0 [d_a]);
    [vm_compute; reflexivity | discriminate | reflexivity | reflexivity
    | discriminate].
Defined.

Lemma no_chunk_no_model_call_witness :
  answer_question id question failing_semantic fixed_llm "Base" None None None w0
  = (Raise (Exception "APITimeoutError"),
     logged w0 [CallSimilaritySearch question RETRIEVER_K None])
  ∧ answer_question id question (fixed_semantic []) fixed_llm "Base" None None None w0
    = (Ok (NOTHING_FOUND, []),
       logged w0 [CallSimilaritySearch question RETRIEVER_K None]).
Proof.
  split.
  - apply (proj1 (no_chunk_no_model_call id question failing_semantic fixed_llm
                      "Base" None None w0
                      (logged w0 [CallSimilaritySearch question RETRIEVER_K None])
                      ltac:(vm_compute; reflexivity))).
    reflexivity.
  - apply (proj2 (no_chunk_no_model_call id question (fixed_semantic []) fixed_llm
                      "Base" None None w0
                      (logged w0 [CallSimilaritySearch question RETRIEVER_K None])
                      ltac:(vm_compute; reflexivity))).
    reflexivity.
Defined.

Lemma answer_cites_retrieved_chunks_witness :
  answer_question id question (fixed_semantic sem4) fixed_llm "Base" None None None w0
  = (Ok ("resposta", sem4),
     logged (logged w0 [CallSimilaritySearch question RETRIEVER_K None])
            [CallLLM question (build_context sem4) (build_history None)])
  ∧ answer_question id question (fixed_semantic sem4) failing_llm "Base" None None None w0
    = (Raise (Exception "RateLimitError"),
       logged (logged w0 [CallSimilaritySearch question RETRIEVER_K None])
              [CallLLM question (build_context sem4) (build_history None)]).
Proof.
  split.
  - apply (proj1 (answer_cites_retrieved_chunks id question (fixed_semantic sem4)
                      fixed_llm "Base" None None w0
                      (logged w0 [CallSimilaritySearch question RETRIEVER_K None])
                      sem4 ltac:(vm_compute; reflexivity) ltac:(reflexivity)
                      ltac:(discriminate))).
    reflexivity.
  - apply (proj2 (answer_cites_retrieved_chunks id question (fixed_semantic sem4)
                      failing_llm "Base" None None w0
                      (logged w0 [CallSimilaritySearch question RETRIEVER_K None])
                      sem4 ltac:(vm_compute; reflexivity) ltac:(reflexivity)
                      ltac:(discriminate))).
    reflexivity.
Defined.

Lemma fallback_search_failure_is_raised_witness :
  answer_question id question (fixed_semantic sem4) fixed_llm "Base" None
                  (Some "contrato.pdf") (Some broken_fallback_chroma) w0
  = (Raise (Exception "APITimeoutError"),
     logged w0 [CallSimilaritySearch question RETRIEVER_K
                  (Some ("filename", "contrato.pdf"));
                CallSimilaritySearch question (RETRIEVER_K * 2) None]).
Proof.
  apply (fallback_search_failure_is_raised id question (fixed_semantic sem4)
           fixed_llm "Base" None "contrato.pdf" broken_fallback_chroma w0
           (Exception "APITimeoutError"));
    [vm_compute; reflexivity | discriminate | reflexivity
    | left; reflexivity | reflexivity].
Defined.

End MoreServiceExamples.

Section MoreIndexStoreExamples.
Import Examples MoreExamples.

Lemma reuse_opens_directory_and_degrades_witness :
  ∃ chunks,
    build working_embeddings w_legacy
    = (Ok (fixed_chroma (indexed_chunks legacy_entries), chunks), w_legacy)
    ∧ chunks = None
    ∧ _create_retriever failing_bm25 (Ok ())
        (fixed_chroma (indexed_chunks legacy_entries)) chunks true
      = as_retriever (fixed_chroma (indexed_chunks legacy_entries)) RETRIEVER_K.
Proof.
  destruct (reuse_opens_directory_and_degrades id load_one_page no_loader id
              fixed_chroma "Base" "vectorstore" working_embeddings
              failing_bm25 (Ok ()) w_legacy legacy_entries)
    as (chunks & Hbuild & _ & Hnone);
    [vm_compute; reflexivity | reflexivity | vm_compute; discriminate |].
  exists chunks. split; [exact Hbuild |].
  apply Hnone. left. vm_compute. reflexivity.
Defined.

(** A persist directory that holds a chunk list and no database: it is
    reused, and opening it leaves a database without vectors next to the
    chunk list. *)
Example reuse_creates_missing_database :
  build failing_embeddings w_chunks_only
  = (Ok (fixed_chroma [], Some base_chunks),
     mkWorld ∅
       {[ "Base" := base_entries;
          "vectorstore" := {[ "chunks.pkl" := PickledChunks base_chunks;
                              "chroma.sqlite3" := VectorDB [] ]} ]}
       []).
Proof. vm_compute. reflexivity. Qed.

Lemma fresh_build_writes_the_pair_witness :
  build working_embeddings w_base
  = (Ok (fixed_chroma base_chunks, Some base_chunks),
     mkWorld ∅ {[ "Base" := base_entries; "vectorstore" := built_entries ]}
             [CallEmbed (page_content <$> base_chunks)]).
Proof.
  unfold build.
  rewrite (fresh_build_writes_the_pair id load_one_page no_loader id fixed_chroma
             "Base" "vectorstore" working_embeddings w_base base_entries);
    [vm_compute; reflexivity | discriminate | vm_compute; reflexivity
    | vm_compute; reflexivity | vm_compute; reflexivity
    | vm_compute; discriminate | reflexivity].
Defined.

Lemma build_then_reopen_witness :
  ∃ r w1,
    build working_embeddings w_base = (Ok r, w1)
    ∧ build failing_embeddings w1 = (Ok r, w1).
Proof.
  destruct (build_then_reopen id load_one_page no_loader id fixed_chroma
              "Base" "vectorstore" working_embeddings failing_embeddings
              w_base base_entries)
    as (r & w1 & Hfirst & _ & Hsecond);
    [discriminate | vm_compute; reflexivity | vm_compute; reflexivity
    | vm_compute; reflexivity | vm_compute; discriminate | reflexivity |].
  exists r, w1. split; [exact Hfirst | exact Hsecond].
Defined.

Lemma forced_rebuild_ignores_old_index_witness :
  build working_embeddings
    (mkWorld (env w_forced) (<["vectorstore" := built_entries]> (fs w_forced))
             (calls w_forced))
  = build working_embeddings w_forced.
Proof.
  apply (forced_rebuild_ignores_old_index id load_one_page no_loader id
           fixed_chroma "Base" "vectorstore" working_embeddings
           w_forced built_entries).
  vm_compute. reflexivity.
Defined.

Lemma filename_is_derived_from_source_witness :
  meta_get (set_filename (chunk "texto do contrato" "Base/sub/a.pdf")) "filename"
  = PyPath.name (meta_get (chunk "texto do contrato" "Base/sub/a.pdf") "source").
Proof.
  destruct (filename_is_derived_from_source
              (chunk "texto do contrato" "Base/sub/a.pdf"))
    as (_ & _ & _ & Hname & _).
  apply Hname. vm_compute. discriminate.
Defined.

Lemma suggestions_are_few_and_not_blank_witness :
  suggest_follow_up_questions chain "pergunta" "resposta"
    `sublist_of` (Py.strip <$> Py.split newline (Py.strip reply)).
Proof.
  destruct (suggestions_are_few_and_not_blank chain "pergunta" "resposta")
    as (_ & _ & Hlines & _).
  apply Hlines. reflexivity.
Defined.

Lemma init_rag_names_first_missing_setting_witness :
  init "" w_no_key
  = (Raise (ValueError ("Variavel de ambiente ausente: " +:+ "API_KEY_MODELOS_TEXTO")),
     w_no_key).
Proof.
  apply (init_rag_names_first_missing_setting id load_one_page no_loader id
           fixed_chroma failing_bm25 (Ok ()) prepare clients
           "" w_no_key w_no_key (VerifyFlag true) "API_KEY_MODELOS_TEXTO");
    [reflexivity | vm_compute; reflexivity].
Defined.

End MoreIndexStoreExamples.

Section MoreCliExamples.
Import Cli Examples MoreExamples.

Lemma cli_history_is_bounded_witness :
  ∃ s' w',
    loop id rag names session (mkState [] None) w0 = (Ok s', w')
    ∧ (length (history s') ≤ 5)%nat.
Proof.
  eexists _, _. split; [vm_compute; reflexivity |].
  eapply (cli_history_is_bounded id rag names session (mkState [] None) _ w0);
    [simpl; lia | vm_compute; reflexivity].
Defined.

Lemma cli_filter_is_a_known_file_witness :
  ∃ s' w',
    loop id rag names session (mkState [] None) w0 = (Ok s', w')
    ∧ (filter_source s' = None ∨ filter_source s' = None
       ∨ ∃ name, name ∈ names ∧ filter_source s' = Some name).
Proof.
  eexists _, _. split; [vm_compute; reflexivity |].
  eapply (cli_filter_is_a_known_file id rag names session (mkState [] None) _ w0);
    [vm_compute; reflexivity | simpl; lia].
Defined.

Lemma cli_commands_are_local_witness :
  turn_on id rag names "/filter c.pdf" (mkState [] (Some "b.pdf")) w0
  = (Ok (Continue (mkState [] (Some "b.pdf"))), w0).
Proof.
  destruct (cli_commands_are_local id rag names "/filter c.pdf"
              (mkState [] (Some "b.pdf")) w0) as (_ & _ & _ & Hfilter).
  destruct Hfilter as [_ Hunknown]; [reflexivity |].
  apply Hunknown; [vm_compute; discriminate |].
  apply (bool_decide_unpack _). vm_compute. exact I.
Defined.

Lemma cli_question_is_recorded_witness :
  ∃ s',
    turn_on id rag names question (mkState [] None) w0
    = (Ok (Continue s'),
       logged (logged w0 [CallSimilaritySearch question RETRIEVER_K None])
              [CallLLM question (build_context sem4) ""])
    ∧ last (history s') = Some (question, "resposta")
    ∧ filter_source s' = None.
Proof.
  destruct (cli_question_is_recorded id rag names question (mkState [] None) w0
              (logged (logged w0 [CallSimilaritySearch question RETRIEVER_K None])
                      [CallLLM question (build_context sem4) ""]))
    as [Hanswer _];
    [vm_compute; discriminate | reflexivity | vm_compute; discriminate
    | vm_compute; discriminate |].
  apply (Hanswer "resposta" sem4). vm_compute. reflexivity.
Defined.

Lemma cli_session_witness :
  main id load_one_page no_loader id fixed_chroma failing_bm25 (Ok ()) prepare clients
       (ret ()) None "" session w_no_key
  = (Raise (ValueError ("Variavel de ambiente ausente: " +:+ "API_KEY_MODELOS_TEXTO")),
     w_no_key)
  ∧ ∃ s' w',
      main id load_one_page no_loader id fixed_chroma failing_bm25 (Ok ()) prepare clients
           (ret ()) (Some "x.pdf") "" ["/filter b.pdf"; ""] w_ready
      = (Ok s', w')
      ∧ (length (history s') ≤ 5)%nat.
Proof.
  split.
  - destruct (cli_session id load_one_page no_loader id fixed_chroma failing_bm25 (Ok ())
                prepare clients (ret ()) None "" session w_no_key w_no_key)
      as [Hfail _]; [reflexivity |].
    apply Hfail. vm_compute. reflexivity.
  - eexists _, _. split; [vm_compute; reflexivity |].
    destruct (cli_session id load_one_page no_loader id fixed_chroma failing_bm25 (Ok ())
                prepare clients (ret ()) (Some "x.pdf") "" ["/filter b.pdf"; ""]
                w_ready w_ready) as [_ Hend]; [reflexivity |].
    eapply Hend. vm_compute. reflexivity.
Defined.

End MoreCliExamples.

